(** * Anonymous message dashboard: the three request handlers

    A shallow embedding of [backend/auth/index.py], [backend/messages/index.py]
    and [backend/topics/index.py].  Each of them is a Python function
    [handler(event, context)] that opens one store connection, runs a few SQL
    statements and returns a response envelope.

    - A handler is a computation in a small state-and-exception monad over a
      [world]: the committed store, the open connection with the state its
      transaction sees, and the trace of connection calls.  An early [return]
      is a branch that ends in [ret]; an uncaught Python exception is [raise].
    - The store is three tables, each the list of its rows in insertion
      order, with the sequences that number them.  SQL statements are
      functions on that record; ORDER BY is a stable sort.
    - Library code is not modelled but taken as a parameter ([Platform]):
      [datetime.isoformat], SHA-256, and the store's reading of a bound
      parameter as an integer.  The clock of the store and the random token
      are inputs of an invocation ([env]).

    The first part holds the embedding and the vocabulary of the
    specification; the second part holds the properties. *)

From Stdlib Require Import ZArith String Ascii List Sorting.Sorted Sorting.Permutation.
From stdpp Require Import base option list gmap strings pretty.

Local Open Scope string_scope.
Local Open Scope list_scope.
Local Open Scope Z_scope.

(** ** Python strings

    A Python [str] is modelled as a [string] whose characters are the code
    points 0..255.  [str.strip()] removes leading and trailing characters for
    which [str.isspace()] holds; in that range these are U+0009..U+000D,
    U+001C..U+001F, U+0020, U+0085 and U+00A0. *)

Module PyStr.

Definition isspace (c : ascii) : bool :=
  let n := N_of_ascii c in
  ((9 <=? n) && (n <=? 13))%N || ((28 <=? n) && (n <=? 32))%N
  || (n =? 133)%N || (n =? 160)%N.

Fixpoint lstrip (s : string) : string :=
  match s with
  | EmptyString => EmptyString
  | String c r => if isspace c then lstrip r else s
  end.

Fixpoint rstrip (s : string) : string :=
  match s with
  | EmptyString => EmptyString
  | String c r =>
      match rstrip r with
      | EmptyString => if isspace c then EmptyString else String c EmptyString
      | r' => String c r'
      end
  end.

Definition strip (s : string) : string := rstrip (lstrip s).

(** [not s] on a [str]. *)
Definition falsy (s : string) : bool :=
  match s with EmptyString => true | _ => false end.

(** [needle in hay]. *)
Fixpoint contains (needle hay : string) : bool :=
  String.prefix needle hay ||
  match hay with
  | EmptyString => false
  | String _ r => contains needle r
  end.

End PyStr.

(** ** JSON values

    What [json.loads] produces and [json.dumps] consumes.  A Python [dict] is
    an association list read by its first binding for a key; numbers are
    integers. *)

#[local] Set Warnings "-register-all".
Inductive json : Type :=
| JNull
| JBool (b : bool)
| JInt (n : Z)
| JStr (s : string)
| JArr (l : list json)
| JObj (o : list (string * json)).
#[local] Set Warnings "register-all".

Fixpoint assoc {A : Type} (k : string) (o : list (string * A)) : option A :=
  match o with
  | [] => None
  | (k', v) :: r => if String.eqb k k' then Some v else assoc k r
  end.

(** Python truth value of a decoded JSON value. *)
Definition truthy (j : json) : bool :=
  match j with
  | JNull => false
  | JBool b => b
  | JInt n => negb (n =? 0)%Z
  | JStr s => negb (PyStr.falsy s)
  | JArr l => match l with [] => false | _ => true end
  | JObj o => match o with [] => false | _ => true end
  end.

(** ** Exceptions and results *)

Inductive exn : Type :=
| JSONDecodeError      (* json.loads on text that is not JSON *)
| TypeError            (* json.loads(None) *)
| AttributeError       (* .get on a non-dict, .strip on a non-str *)
| DatabaseError        (* the store rejects a statement *)
| InterfaceError.      (* a statement on a closed connection *)

Inductive result (A : Type) : Type :=
| Val (a : A)
| Exc (e : exn).
Arguments Val {A} a.
Arguments Exc {A} e.

(** [d.get(k, dflt)]: raises [AttributeError] when [d] is not a dict. *)
Definition dict_get (d : json) (k : string) (dflt : json) : result json :=
  match d with
  | JObj o => Val (default dflt (assoc k o))
  | _ => Exc AttributeError
  end.

(** [v.strip()]: raises [AttributeError] when [v] is not a [str]. *)
Definition str_strip (v : json) : result string :=
  match v with
  | JStr s => Val (PyStr.strip s)
  | _ => Exc AttributeError
  end.

(** ** Requests and responses *)

(** The [body] entry of the event, seen through
    [json.loads(event.get('body', '{}'))]. *)
Inductive body_in : Type :=
| BodyAbsent                 (* no 'body' key: the default '{}' is decoded *)
| BodyNone                   (* 'body': None *)
| BodyMalformed              (* text that is not JSON *)
| BodyJson (j : json).       (* text that decodes to j *)

(** The event dict.  A missing [httpMethod] or [path] is [None] and takes the
    default of [event.get]; a missing or null [queryStringParameters] is the
    empty dict; [headers] is [None] when the entry is null, and a missing
    entry is the empty dict. *)
Record event : Type := Event {
  httpMethod : option string;
  path : option string;
  headers : option (gmap string string);
  queryStringParameters : gmap string string;
  body : body_in
}.

(** The body of a response: the empty string, or [json.dumps] of a value. *)
Inductive body_out : Type :=
| BodyEmpty
| BodyDumps (j : json).

Record response : Type := Response {
  statusCode : Z;
  resp_headers : list (string * string);
  resp_body : body_out;
  isBase64Encoded : bool
}.

(** ** The store *)

Record user : Type := User {
  u_id : Z;
  u_username : string;
  u_email : string;
  u_password_hash : string;
  u_created_at : Z
}.

Record topic : Type := Topic {
  t_id : Z;
  t_title : string;
  t_user_id : Z;
  t_created_at : Z
}.

Record message : Type := Message {
  m_id : Z;
  m_content : string;
  m_user_id : option Z;
  m_topic_id : option Z;
  m_created_at : Z
}.

(** Modelled from the spec: the persisted schema (the migrations are not part
    of the sources).  [users(id, username, email, password_hash, created_at)],
    [topics(id, title, user_id, created_at)] and
    [messages(id, content, user_id NULL, topic_id NULL, created_at)]; [id] is
    drawn from a per-table sequence and [created_at] is the store's clock at
    insertion.  A table is the list of its rows in insertion order, which is
    also the order of an unordered scan. *)
Record store : Type := Store {
  users : list user;
  topics : list topic;
  messages : list message;
  next_user_id : Z;
  next_topic_id : Z;
  next_message_id : Z
}.

Definition empty_store : store := Store [] [] [] 1 1 1.

(** ** What the handlers take from outside the repository

    [isoformat] is [datetime.isoformat] on a [created_at] value,
    [sha256_hexdigest s] is [hashlib.sha256(s.encode()).hexdigest()], and
    [pg_int] is the store's reading of a bound statement parameter as an
    integer key ([None]: the store rejects the statement and the driver
    raises).  The development is parametric in all three. *)
Class Platform : Type := {
  isoformat : Z -> string;
  sha256_hexdigest : string -> string;
  pg_int : json -> option Z
}.

(** What one invocation draws from its environment: the store's clock, used
    for the [created_at] default, and the value of
    [secrets.token_urlsafe(32)]. *)
Record env : Type := Env {
  now : Z;
  fresh_token : string
}.

(** ** Effects: the connection and the store *)

Inductive io_event : Type :=
| EvConnect         (* psycopg2.connect *)
| EvCursor          (* conn.cursor() *)
| EvCursorClose     (* cur.close() *)
| EvCommit          (* conn.commit() *)
| EvClose.          (* conn.close() *)

(** [db] is the committed store; [conn] is the open connection, holding the
    state its transaction sees; [trace] lists the connection calls made so
    far, oldest first. *)
Record world : Type := World {
  db : store;
  conn : option store;
  trace : list io_event
}.

Definition M (A : Type) : Type := world -> result A * world.

Definition ret {A : Type} (a : A) : M A := fun w => (Val a, w).

Definition raise {A : Type} (e : exn) : M A := fun w => (Exc e, w).

Definition bind {A B : Type} (m : M A) (k : A -> M B) : M B :=
  fun w =>
    match m w with
    | (Val a, w') => k a w'
    | (Exc e, w') => (Exc e, w')
    end.

Definition lift {A : Type} (r : result A) : M A := fun w => (r, w).

Notation "x <- m ;; k" := (bind m (fun x => k))
  (at level 100, m at next level, right associativity).
Notation "m ;; k" := (bind m (fun _ => k))
  (at level 100, right associativity).

Definition log (ev : io_event) (w : world) : world :=
  World (db w) (conn w) (trace w ++ [ev]).

(** [psycopg2.connect(database_url, ...)]: the connection is assumed to
    succeed; its transaction starts from the committed store. *)
Definition get_db_connection : M unit :=
  fun w => (Val tt, World (db w) (Some (db w)) (trace w ++ [EvConnect])).

Definition cursor : M unit := fun w => (Val tt, log EvCursor w).

Definition cur_close : M unit := fun w => (Val tt, log EvCursorClose w).

(** [cur.execute(SELECT ...)] followed by [fetchone]/[fetchall]. *)
Definition query {A : Type} (q : store -> A) : M A :=
  fun w =>
    match conn w with
    | Some s => (Val (q s), w)
    | None => (Exc InterfaceError, w)
    end.

(** [cur.execute(INSERT ... RETURNING ...)]; the returned row is what the
    later [fetchone] yields. *)
Definition execute_insert {A : Type} (q : store -> A * store) : M A :=
  fun w =>
    match conn w with
    | Some s => let '(a, s') := q s in (Val a, World (db w) (Some s') (trace w))
    | None => (Exc InterfaceError, w)
    end.

Definition commit : M unit :=
  fun w =>
    match conn w with
    | Some s => (Val tt, World s (Some s) (trace w ++ [EvCommit]))
    | None => (Exc InterfaceError, w)
    end.

Definition conn_close : M unit :=
  fun w => (Val tt, World (db w) None (trace w ++ [EvClose])).

(** [json.loads(event.get('body', '{}'))]. *)
Definition json_loads (b : body_in) : result json :=
  match b with
  | BodyAbsent => Val (JObj [])
  | BodyNone => Exc TypeError
  | BodyMalformed => Exc JSONDecodeError
  | BodyJson j => Val j
  end.

(** [body_data.get(k, '').strip()]. *)
Definition get_strip (body_data : json) (k : string) : M string :=
  v <- lift (dict_get body_data k (JStr "")) ;;
  lift (str_strip v).

(** ** ORDER BY

    A stable insertion sort: rows that compare equal keep their scan order. *)
Section OrderBy.
Context {A : Type} (before : A -> A -> bool).

Fixpoint insert_row (x : A) (l : list A) : list A :=
  match l with
  | [] => [x]
  | y :: r => if before x y then x :: l else y :: insert_row x r
  end.

Definition order_by (l : list A) : list A := foldr insert_row [] l.

(** [a] may stand before [b] in the ordering. *)
Definition precedes (a b : A) : Prop := before a b = true.
End OrderBy.

(** ** Response envelopes *)

Definition json_headers : list (string * string) :=
  [("Content-Type", "application/json"); ("Access-Control-Allow-Origin", "*")].

Definition options_response (allow_headers : string) : response :=
  Response 200
    [("Access-Control-Allow-Origin", "*");
     ("Access-Control-Allow-Methods", "GET, POST, OPTIONS");
     ("Access-Control-Allow-Headers", allow_headers);
     ("Access-Control-Max-Age", "86400")]
    BodyEmpty false.

Definition json_response (code : Z) (j : json) : response :=
  Response code json_headers (BodyDumps j) false.

Definition error_response (code : Z) (msg : string) : response :=
  json_response code (JObj [("error", JStr msg)]).

(** ** backend/auth/index.py *)

Module Auth.
Section Handler.
Context `{Platform}.

Definition hash_password (password : string) : string :=
  sha256_hexdigest password.

Definition generate_token (e : env) : string := fresh_token e.

(** [SELECT id FROM users WHERE username = %s OR email = %s], [fetchone]. *)
Definition select_existing (username email : string) (s : store) : option user :=
  List.find (fun u => String.eqb (u_username u) username
                      || String.eqb (u_email u) email) (users s).

(** [INSERT INTO users (username, email, password_hash) VALUES (...)
    RETURNING id, username, email, created_at]. *)
Definition insert_user (e : env) (username email password_hash : string)
    (s : store) : user * store :=
  let u := User (next_user_id s) username email password_hash (now e) in
  (u, Store (users s ++ [u]) (topics s) (messages s)
            (next_user_id s + 1) (next_topic_id s) (next_message_id s)).

(** [SELECT id, username, email, created_at FROM users
     WHERE email = %s AND password_hash = %s], [fetchone]. *)
Definition select_credentials (email password_hash : string) (s : store)
    : option user :=
  List.find (fun u => String.eqb (u_email u) email
                      && String.eqb (u_password_hash u) password_hash) (users s).

Definition user_json (u : user) : json :=
  JObj [("id", JInt (u_id u));
        ("username", JStr (u_username u));
        ("email", JStr (u_email u));
        ("created_at", JStr (isoformat (u_created_at u)))].

Definition session_json (u : user) (token : string) : json :=
  JObj [("user", user_json u); ("token", JStr token)].

Definition register (ev : event) (e : env) : M response :=
  body_data <- lift (json_loads (body ev)) ;;
  username <- get_strip body_data "username" ;;
  email <- get_strip body_data "email" ;;
  password <- get_strip body_data "password" ;;
  if PyStr.falsy username || PyStr.falsy email || PyStr.falsy password then
    cur_close ;; conn_close ;;
    ret (error_response 400 "All fields are required")
  else
    existing <- query (select_existing username email) ;;
    match existing with
    | Some _ =>
        cur_close ;; conn_close ;;
        ret (error_response 409 "Username or email already exists")
    | None =>
        let password_hash := hash_password password in
        user <- execute_insert (insert_user e username email password_hash) ;;
        commit ;;
        let token := generate_token e in
        cur_close ;; conn_close ;;
        ret (json_response 201 (session_json user token))
    end.

Definition login (ev : event) (e : env) : M response :=
  body_data <- lift (json_loads (body ev)) ;;
  email <- get_strip body_data "email" ;;
  password <- get_strip body_data "password" ;;
  if PyStr.falsy email || PyStr.falsy password then
    cur_close ;; conn_close ;;
    ret (error_response 400 "Email and password are required")
  else
    let password_hash := hash_password password in
    user <- query (select_credentials email password_hash) ;;
    cur_close ;; conn_close ;;
    match user with
    | None => ret (error_response 401 "Invalid credentials")
    | Some u =>
        let token := generate_token e in
        ret (json_response 200 (session_json u token))
    end.

Definition handler (ev : event) (e : env) : M response :=
  let method := default "GET" (httpMethod ev) in
  let params := queryStringParameters ev in
  let action := default "" (params !! "action") in
  if String.eqb method "OPTIONS" then
    ret (options_response "Content-Type, X-Auth-Token")
  else
    get_db_connection ;; cursor ;;
    if String.eqb method "POST" && String.eqb action "register" then
      register ev e
    else if String.eqb method "POST" && String.eqb action "login" then
      login ev e
    else
      cur_close ;; conn_close ;;
      ret (error_response 404 "Not found").
End Handler.
End Auth.

(** ** backend/messages/index.py *)

Module Messages.
Section Handler.
Context `{Platform}.

(** [ORDER BY created_at DESC]. *)
Definition newest_first (a b : message) : bool :=
  m_created_at b <=? m_created_at a.

(** [SELECT id, content, created_at FROM messages ORDER BY created_at DESC],
    [fetchall]. *)
Definition select_messages (s : store) : list message :=
  order_by newest_first (messages s).

(** [INSERT INTO messages (content) VALUES (%s)
     RETURNING id, content, created_at]. *)
Definition insert_message (e : env) (content : string) (s : store)
    : message * store :=
  let m := Message (next_message_id s) content None None (now e) in
  (m, Store (users s) (topics s) (messages s ++ [m])
            (next_user_id s) (next_topic_id s) (next_message_id s + 1)).

Definition message_json (m : message) : json :=
  JObj [("id", JInt (m_id m));
        ("content", JStr (m_content m));
        ("created_at", JStr (isoformat (m_created_at m)))].

Definition handler (ev : event) (e : env) : M response :=
  let method := default "GET" (httpMethod ev) in
  if String.eqb method "OPTIONS" then
    ret (options_response "Content-Type")
  else
    get_db_connection ;; cursor ;;
    if String.eqb method "GET" then
      messages <- query select_messages ;;
      cur_close ;; conn_close ;;
      let messages_list := map message_json messages in
      ret (json_response 200 (JObj [("messages", JArr messages_list)]))
    else if String.eqb method "POST" then
      body_data <- lift (json_loads (body ev)) ;;
      content <- get_strip body_data "content" ;;
      if PyStr.falsy content then
        cur_close ;; conn_close ;;
        ret (error_response 400 "Content is required")
      else
        new_message <- execute_insert (insert_message e content) ;;
        commit ;;
        cur_close ;; conn_close ;;
        ret (json_response 201 (JObj [("message", message_json new_message)]))
    else
      cur_close ;; conn_close ;;
      ret (error_response 405 "Method not allowed").
End Handler.
End Messages.

(** ** backend/topics/index.py *)

Module Topics.
Section Handler.
Context `{Platform}.

(** [a or b] on the results of two [headers.get]. *)
Definition py_or (a b : option string) : option string :=
  match a with
  | Some (String _ _) => a
  | _ => b
  end.

(** [not token]. *)
Definition no_token (token : option string) : bool :=
  match token with
  | Some (String _ _) => false
  | _ => true
  end.

(** [SELECT id FROM users LIMIT 1], [fetchone]: the first row of the scan. *)
Definition select_first_user (s : store) : option user := head (users s).

Definition get_user_id_from_token (headers : option (gmap string string))
    : M (option Z) :=
  match headers with
  | None => raise AttributeError
  | Some h =>
      let token := py_or (h !! "X-Auth-Token") (h !! "x-auth-token") in
      if no_token token then ret None
      else
        cursor ;;
        user <- query select_first_user ;;
        cur_close ;;
        match user with
        | Some u => ret (Some (u_id u))
        | None => ret None
        end
  end.

(** [not user_id]. *)
Definition no_user (user_id : option Z) : bool :=
  match user_id with
  | Some i => i =? 0
  | None => true
  end.

(** One row of the topic listing. *)
Record topic_row : Type := TopicRow {
  r_id : Z;
  r_title : string;
  r_created_at : Z;
  r_user_id : option Z;
  r_username : option string;
  r_message_count : Z;
  r_last_activity : option Z
}.

Definition user_by_id (i : Z) (s : store) : option user :=
  List.find (fun u => u_id u =? i) (users s).

Definition in_topic (i : Z) (m : message) : bool :=
  match m_topic_id m with
  | Some j => j =? i
  | None => false
  end.

(** [MAX] over a column: NULL on no rows. *)
Definition sql_max (l : list Z) : option Z :=
  foldr (fun x acc => Some (match acc with Some y => Z.max x y | None => x end))
        None l.

(** The grouped row of topic [t]: [t.id] and [u.id] are the primary keys of
    their tables (the store accepts the ungrouped columns [t.title] and
    [u.username] only then), so every topic, joined with its user, is one
    group, aggregated over the messages joined to it. *)
Definition topic_group (s : store) (t : topic) : topic_row :=
  let u := user_by_id (t_user_id t) s in
  let ms := List.filter (in_topic (t_id t)) (messages s) in
  TopicRow (t_id t) (t_title t) (t_created_at t)
           (u_id <$> u) (u_username <$> u)
           (Z.of_nat (length ms)) (sql_max (map m_created_at ms)).

(** [ORDER BY last_activity DESC NULLS LAST, t.created_at DESC]. *)
Definition topic_before (a b : topic_row) : bool :=
  match r_last_activity a, r_last_activity b with
  | Some x, Some y =>
      (y <? x) || ((x =? y) && (r_created_at b <=? r_created_at a))
  | Some _, None => true
  | None, Some _ => false
  | None, None => r_created_at b <=? r_created_at a
  end.

(** The topic listing statement of [GET /], [fetchall]. *)
Definition select_topics (s : store) : list topic_row :=
  order_by topic_before (map (topic_group s) (topics s)).

Definition json_of_option {A : Type} (f : A -> json) (o : option A) : json :=
  match o with
  | Some a => f a
  | None => JNull
  end.

Definition topic_row_json (r : topic_row) : json :=
  JObj [("id", JInt (r_id r));
        ("title", JStr (r_title r));
        ("created_at", JStr (isoformat (r_created_at r)));
        ("user", JObj [("id", json_of_option JInt (r_user_id r));
                       ("username", json_of_option JStr (r_username r))]);
        ("message_count", JInt (r_message_count r));
        ("last_activity",
           JStr (match r_last_activity r with
                 | Some a => isoformat a
                 | None => isoformat (r_created_at r)
                 end))].

(** [INSERT INTO topics (title, user_id) VALUES (%s, %s)
     RETURNING id, title, created_at]. *)
Definition insert_topic (e : env) (title : string) (user_id : Z) (s : store)
    : topic * store :=
  let t := Topic (next_topic_id s) title user_id (now e) in
  (t, Store (users s) (topics s ++ [t]) (messages s)
            (next_user_id s) (next_topic_id s + 1) (next_message_id s)).

Definition topic_json (t : topic) : json :=
  JObj [("id", JInt (t_id t));
        ("title", JStr (t_title t));
        ("created_at", JStr (isoformat (t_created_at t)))].

(** One row of the messages of a topic, joined with its author. *)
Record message_row : Type := MessageRow {
  mr_id : Z;
  mr_content : string;
  mr_created_at : Z;
  mr_user_id : option Z;
  mr_username : option string
}.

Definition message_join (s : store) (m : message) : message_row :=
  let u := i ← m_user_id m; user_by_id i s in
  MessageRow (m_id m) (m_content m) (m_created_at m)
             (u_id <$> u) (u_username <$> u).

(** [ORDER BY m.created_at ASC]. *)
Definition oldest_first (a b : message_row) : bool :=
  mr_created_at a <=? mr_created_at b.

(** The statement of [GET /messages]; [None] when the store cannot read the
    bound [topic_id] as an integer. *)
Definition select_topic_messages (topic_id : string) (s : store)
    : option (list message_row) :=
  i ← pg_int (JStr topic_id);
  Some (order_by oldest_first
          (map (message_join s) (List.filter (in_topic i) (messages s)))).

Definition message_row_json (r : message_row) : json :=
  JObj [("id", JInt (mr_id r));
        ("content", JStr (mr_content r));
        ("created_at", JStr (isoformat (mr_created_at r)));
        ("user",
           if no_user (mr_user_id r) then JNull
           else JObj [("id", json_of_option JInt (mr_user_id r));
                      ("username", json_of_option JStr (mr_username r))])].

(** [INSERT INTO messages (content, user_id, topic_id) VALUES (%s, %s, %s)
     RETURNING id, content, created_at]; [None] when the store cannot read
    the bound [topic_id] as an integer. *)
Definition insert_topic_message (e : env) (content : string) (user_id : Z)
    (topic_id : json) (s : store) : option (message * store) :=
  i ← pg_int topic_id;
  let m := Message (next_message_id s) content (Some user_id) (Some i) (now e) in
  Some (m, Store (users s) (topics s) (messages s ++ [m])
                 (next_user_id s) (next_topic_id s) (next_message_id s + 1)).

Definition created_message_json (m : message) : json :=
  JObj [("id", JInt (m_id m));
        ("content", JStr (m_content m));
        ("created_at", JStr (isoformat (m_created_at m)))].

(** A statement the store may reject: the driver raises. *)
Definition query_checked {A : Type} (q : store -> option A) : M A :=
  r <- query q ;;
  match r with
  | Some a => ret a
  | None => raise DatabaseError
  end.

Definition execute_insert_checked {A : Type} (q : store -> option (A * store))
    : M A :=
  fun w =>
    match conn w with
    | Some s =>
        match q s with
        | Some (a, s') => (Val a, World (db w) (Some s') (trace w))
        | None => (Exc DatabaseError, w)
        end
    | None => (Exc InterfaceError, w)
    end.

Definition unauthorized : M response :=
  cur_close ;; conn_close ;;
  ret (error_response 401 "Unauthorized").

Definition list_topics : M response :=
  topics <- query select_topics ;;
  cur_close ;; conn_close ;;
  let topics_list := map topic_row_json topics in
  ret (json_response 200 (JObj [("topics", JArr topics_list)])).

Definition create_topic (ev : event) (e : env) : M response :=
  user_id <- get_user_id_from_token (headers ev) ;;
  if no_user user_id then unauthorized
  else
    body_data <- lift (json_loads (body ev)) ;;
    title <- get_strip body_data "title" ;;
    if PyStr.falsy title then
      cur_close ;; conn_close ;;
      ret (error_response 400 "Title is required")
    else
      topic <- execute_insert (insert_topic e title (default 0 user_id)) ;;
      commit ;;
      cur_close ;; conn_close ;;
      ret (json_response 201 (JObj [("topic", topic_json topic)])).

Definition list_topic_messages (ev : event) : M response :=
  let params := queryStringParameters ev in
  let topic_id := params !! "topic_id" in
  match topic_id with
  | Some (String c r) =>
      messages <- query_checked (select_topic_messages (String c r)) ;;
      cur_close ;; conn_close ;;
      let messages_list := map message_row_json messages in
      ret (json_response 200 (JObj [("messages", JArr messages_list)]))
  | _ =>
      cur_close ;; conn_close ;;
      ret (error_response 400 "topic_id is required")
  end.

Definition create_topic_message (ev : event) (e : env) : M response :=
  user_id <- get_user_id_from_token (headers ev) ;;
  if no_user user_id then unauthorized
  else
    body_data <- lift (json_loads (body ev)) ;;
    content <- get_strip body_data "content" ;;
    topic_id <- lift (dict_get body_data "topic_id" JNull) ;;
    if PyStr.falsy content || negb (truthy topic_id) then
      cur_close ;; conn_close ;;
      ret (error_response 400 "Content and topic_id are required")
    else
      message <- execute_insert_checked
                   (insert_topic_message e content (default 0 user_id) topic_id) ;;
      commit ;;
      cur_close ;; conn_close ;;
      ret (json_response 201 (JObj [("message", created_message_json message)])).

Definition handler (ev : event) (e : env) : M response :=
  let method := default "GET" (httpMethod ev) in
  let path := default "/" (path ev) in
  if String.eqb method "OPTIONS" then
    ret (options_response "Content-Type, X-Auth-Token")
  else
    get_db_connection ;; cursor ;;
    if String.eqb method "GET" && String.eqb path "/" then
      list_topics
    else if String.eqb method "POST" && String.eqb path "/" then
      create_topic ev e
    else if String.eqb method "GET" && PyStr.contains "/messages" path then
      list_topic_messages ev
    else if String.eqb method "POST" && PyStr.contains "/messages" path then
      create_topic_message ev e
    else
      cur_close ;; conn_close ;;
      ret (error_response 404 "Not found").
End Handler.
End Topics.

(** ** One invocation

    A handler invocation starts from the committed store with no connection
    and an empty trace; it yields the handler's result (a response, or the
    exception that escaped), the committed store afterwards, and the final
    world. *)
Definition invoke (h : event -> env -> M response) (ev : event) (e : env)
    (s : store) : result response * world :=
  h ev e (World s None []).

Definition outcome (rw : result response * world) : result response := fst rw.
Definition store_after (rw : result response * world) : store := db (snd rw).


(** ** The three handlers by name *)

Inductive handler_name : Type :=
| AuthHandler
| MessagesHandler
| TopicsHandler.

Definition handler_of `{Platform} (h : handler_name)
    : event -> env -> M response :=
  match h with
  | AuthHandler => Auth.handler
  | MessagesHandler => Messages.handler
  | TopicsHandler => Topics.handler
  end.

Definition method_of (ev : event) : string := default "GET" (httpMethod ev).
Definition path_of (ev : event) : string := default "/" (path ev).

(** ** Vocabulary of the specification *)

(** The store only grew: every table of [s'] starts with the rows of [s],
    unchanged and in place. *)
Definition extends (s s' : store) : Prop :=
  users s `prefix_of` users s' /\
  topics s `prefix_of` topics s' /\
  messages s `prefix_of` messages s'.

(** How often an event occurs in a trace. *)
Definition occurrences (ev : io_event) (t : list io_event) : nat :=
  length (List.filter
            (fun x => match ev, x with
                      | EvConnect, EvConnect | EvCursor, EvCursor
                      | EvCursorClose, EvCursorClose | EvCommit, EvCommit
                      | EvClose, EvClose => true
                      | _, _ => false
                      end) t).

(** The status codes of error responses and the literal messages the
    handlers attach to them. *)
Definition error_statuses : list Z := [400; 401; 404; 405; 409].

Definition error_messages : list string :=
  ["All fields are required"; "Username or email already exists";
   "Email and password are required"; "Invalid credentials"; "Not found";
   "Content is required"; "Method not allowed"; "Unauthorized";
   "Title is required"; "topic_id is required";
   "Content and topic_id are required"].

(** ** A concrete platform, for running the handlers on examples *)

Fixpoint decimal (s : string) (acc : Z) : option Z :=
  match s with
  | EmptyString => Some acc
  | String c r =>
      let n := Z.of_N (N_of_ascii c) in
      if (48 <=? n) && (n <=? 57) then decimal r (10 * acc + (n - 48)) else None
  end.

Definition example_platform : Platform := {|
  isoformat := fun t => String.append "T+" (pretty t);
  sha256_hexdigest := fun s => String.append "sha256:" s;
  pg_int := fun j =>
    match j with
    | JInt n => Some n
    | JStr (String c r) => decimal (String c r) 0
    | _ => None
    end
|}.

(** ** Requests, as the specification names them *)

(** What [body_data.get(k, '')] yields on the decoded object [o]. *)
Definition field (o : list (string * json)) (k : string) : json :=
  default (JStr "") (assoc k o).

(** A POST with [action=register] whose body is a JSON object carrying the
    strings [u], [m] and [p] as username, email and password (a missing key
    counts as the empty string). *)
Definition register_request (ev : event) (u m p : string) : Prop :=
  method_of ev = "POST" /\
  queryStringParameters ev !! "action" = Some "register" /\
  exists o, body ev = BodyJson (JObj o) /\
            field o "username" = JStr u /\
            field o "email" = JStr m /\
            field o "password" = JStr p.

(** A POST with [action=login] whose body carries [m] and [p] as email and
    password. *)
Definition login_request (ev : event) (m p : string) : Prop :=
  method_of ev = "POST" /\
  queryStringParameters ev !! "action" = Some "login" /\
  exists o, body ev = BodyJson (JObj o) /\
            field o "email" = JStr m /\
            field o "password" = JStr p.

(** The [user.id] entry of a response body. *)
Definition user_id_of (r : response) : option json :=
  match resp_body r with
  | BodyDumps (JObj o) =>
      match assoc "user" o with
      | Some (JObj u) => assoc "id" u
      | _ => None
      end
  | _ => None
  end.

(** ** Example requests *)

Definition ex_register (u m p : string) : event :=
  Event (Some "POST") (Some "/") (Some ∅) {["action" := "register"]}
        (BodyJson (JObj [("username", JStr u); ("email", JStr m);
                         ("password", JStr p)])).

Definition ex_login (m p : string) : event :=
  Event (Some "POST") (Some "/") (Some ∅) {["action" := "login"]}
        (BodyJson (JObj [("email", JStr m); ("password", JStr p)])).

Definition ex_get (p : string) : event :=
  Event (Some "GET") (Some p) (Some ∅) ∅ BodyAbsent.

Definition ex_post (p : string) (hs : gmap string string) (b : body_in) : event :=
  Event (Some "POST") (Some p) (Some hs) ∅ b.

Definition ex_content (c : string) : body_in :=
  BodyJson (JObj [("content", JStr c)]).

Definition ex_title (t : string) : body_in :=
  BodyJson (JObj [("title", JStr t)]).

(** A POST whose body is a JSON object carrying the string [c] as content. *)
Definition post_request (ev : event) (c : string) : Prop :=
  method_of ev = "POST" /\
  exists o, body ev = BodyJson (JObj o) /\ field o "content" = JStr c.

(** The shape of one entry of the flat board:
    {id, content, created_at ISO-8601}. *)
Definition board_entry `{Platform} (m : message) : json :=
  JObj [("id", JInt (m_id m));
        ("content", JStr (m_content m));
        ("created_at", JStr (isoformat (m_created_at m)))].

(** Descending by creation time. *)
Definition newer_or_equal (a b : message) : Prop :=
  m_created_at b <= m_created_at a.

(** ** The topic listing, in the specification's words *)

Section TopicVocabulary.
Context `{Platform}.

(** The messages whose [topic_id] is topic [t]. *)
Definition messages_of (s : store) (t : topic) : list message :=
  filter (fun m => m_topic_id m = Some (t_id t)) (messages s).

Definition message_count (s : store) (t : topic) : Z :=
  Z.of_nat (length (messages_of s t)).

(** The maximum of a list; none for the empty list. *)
Definition maximum (l : list Z) : option Z :=
  match l with
  | [] => None
  | x :: r => Some (fold_left Z.max r x)
  end.

(** The latest [created_at] among the messages of [t], if it has any. *)
Definition last_message (s : store) (t : topic) : option Z :=
  maximum (map m_created_at (messages_of s t)).

(** ... falling back to the topic's own [created_at]. *)
Definition last_activity (s : store) (t : topic) : Z :=
  default (t_created_at t) (last_message s t).

(** The user who created [t]. *)
Definition creator (s : store) (t : topic) : option user :=
  List.find (fun u => bool_decide (u_id u = t_user_id t)) (users s).

Definition listed_topic (s : store) (t : topic) : json :=
  JObj [("id", JInt (t_id t));
        ("title", JStr (t_title t));
        ("created_at", JStr (isoformat (t_created_at t)));
        ("user",
           JObj [("id", match creator s t with
                        | Some u => JInt (u_id u)
                        | None => JNull
                        end);
                 ("username", match creator s t with
                              | Some u => JStr (u_username u)
                              | None => JNull
                              end)]);
        ("message_count", JInt (message_count s t));
        ("last_activity", JStr (isoformat (last_activity s t)))].

(** Topic [a] may be listed before topic [b]: latest message descending,
    topics without messages after all topics with messages (NULLS LAST),
    and among those their own [created_at] descending. *)
Definition activity_order (s : store) (a b : topic) : Prop :=
  match last_message s a, last_message s b with
  | Some x, Some y => y <= x
  | Some _, None => True
  | None, Some _ => False
  | None, None => t_created_at b <= t_created_at a
  end.
End TopicVocabulary.

(** ** Identity, in the specification's words *)

(** The request [ev] with the value of its X-Auth-Token header replaced by
    [t]. *)
Definition set_token (t : string) (ev : event) : event :=
  Event (httpMethod ev) (path ev)
        (Some (<["X-Auth-Token" := t]> (default ∅ (headers ev))))
        (queryStringParameters ev) (body ev).

(** The identity that the Topics handler resolves for [ev] on store [s]: the
    result of [get_user_id_from_token] on an open connection. *)
Definition resolved_user (ev : event) (s : store) : result (option Z) :=
  fst (Topics.get_user_id_from_token (headers ev) (World s (Some s) [])).

(** The token presented by a request, as the handler reads it. *)
Definition presented_token (h : gmap string string) : option string :=
  Topics.py_or (h !! "X-Auth-Token") (h !! "x-auth-token").

(** Modelled from the spec: the token store that identity resolution is to
    consult (token, user it was issued to); the sources have none.  The
    ledger of a run of the Auth handler records the token of each 200 or 201
    response against the id of the user in that response. *)
Definition ledger : Type := list (string * Z).

Definition issued (r : result response) : ledger :=
  match r with
  | Val (Response _ _ (BodyDumps (JObj o)) _) =>
      match assoc "user" o, assoc "token" o with
      | Some (JObj u), Some (JStr t) =>
          match assoc "id" u with
          | Some (JInt i) => [(t, i)]
          | _ => []
          end
      | _, _ => []
      end
  | _ => []
  end.

(** Modelled from the spec: the user a token was issued to; no identity for
    an absent or unknown token. *)
Definition issued_to (l : ledger) (token : option string) : option Z :=
  t ← token; assoc t l.

(** A POST that creates a topic or a topic message. *)
Definition creates (ev : event) : Prop :=
  method_of ev = "POST" /\
  (path_of ev = "/" \/ PyStr.contains "/messages" (path_of ev) = true).

(** ** Example stores *)

(** Two registrations on the empty store: alice, then bob. *)
Definition ex_alice : event := ex_register " alice " "alice@example.org" "pw-a".
Definition ex_bob : event := ex_register "bob" "bob@example.org" "pw-b".

Definition ex_run_alice : result response * world :=
  invoke (Auth.handler (H := example_platform)) ex_alice (Env 100 "token-A")
         empty_store.

Definition ex_run_bob : result response * world :=
  invoke (Auth.handler (H := example_platform)) ex_bob (Env 200 "token-B")
         (store_after ex_run_alice).

Definition ex_two_users : store := store_after ex_run_bob.

(** The tokens that the two registrations handed out. *)
Definition ex_ledger : ledger :=
  issued (outcome ex_run_alice) ++ issued (outcome ex_run_bob).

(** A request to create a topic, presenting [t] as X-Auth-Token. *)
Definition ex_create_topic (t : string) : event :=
  ex_post "/" {["X-Auth-Token" := t]} (ex_title "Welcome").

(** A forum with two topics: topic 1 (created at 300) has messages at 310 and
    320, topic 2 (created at 400) has none; message 3 is on the flat board. *)
Definition ex_forum : store :=
  Store (users ex_two_users)
        [Topic 1 "First" 1 300; Topic 2 "Second" 2 400]
        [Message 1 "a" (Some 1) (Some 1) 310;
         Message 2 "b" (Some 2) (Some 1) 320;
         Message 3 "c" None None 330]
        3 3 4.

(** A POST whose body is not JSON. *)
Definition ex_malformed_post : event := ex_post "/" ∅ BodyMalformed.


(** ** Further vocabulary: effects and invariants *)

(** The Access-Control-Allow-Headers value of each handler's preflight
    answer. *)
Definition allowed_headers (h : handler_name) : string :=
  match h with
  | MessagesHandler => "Content-Type"
  | _ => "Content-Type, X-Auth-Token"
  end.

(** No two users share a username, and no two share an email. *)
Definition unique_credentials (s : store) : Prop :=
  NoDup (map u_username (users s)) /\ NoDup (map u_email (users s)).

(** A text that is non-empty and has no surrounding whitespace. *)
Definition trimmed (x : string) : Prop := x <> "" /\ PyStr.strip x = x.

(** Every stored username, email, topic title and message content is
    non-empty and trimmed. *)
Definition stored_text_trimmed (s : store) : Prop :=
  Forall (fun u => trimmed (u_username u) /\ trimmed (u_email u)) (users s) /\
  Forall (fun t => trimmed (t_title t)) (topics s) /\
  Forall (fun m => trimmed (m_content m)) (messages s).

(** The number of rows of the store. *)
Definition rows (s : store) : nat :=
  (length (users s) + length (topics s) + length (messages s))%nat.

(** What one invocation can do to the committed store: nothing, or one of
    the four INSERT statements, each behind the checks that guard it. *)
Inductive effect `{Platform} (e : env) (s : store) : store -> Prop :=
| effect_none : effect e s s
| effect_user (u m p : string) :
    PyStr.strip u <> "" -> PyStr.strip m <> "" -> PyStr.strip p <> "" ->
    Auth.select_existing (PyStr.strip u) (PyStr.strip m) s = None ->
    effect e s
      (Auth.insert_user e (PyStr.strip u) (PyStr.strip m)
         (Auth.hash_password (PyStr.strip p)) s).2
| effect_message (c : string) :
    PyStr.strip c <> "" ->
    effect e s (Messages.insert_message e (PyStr.strip c) s).2
| effect_topic (t : string) (usr : user) :
    PyStr.strip t <> "" ->
    head (users s) = Some usr -> u_id usr <> 0 ->
    effect e s (Topics.insert_topic e (PyStr.strip t) (u_id usr) s).2
| effect_topic_message (c : string) (usr : user) (topic_id : json)
    (m : message) (s' : store) :
    PyStr.strip c <> "" ->
    head (users s) = Some usr -> u_id usr <> 0 ->
    truthy topic_id = true ->
    Topics.insert_topic_message e (PyStr.strip c) (u_id usr) topic_id s
      = Some (m, s') ->
    effect e s s'.

(** ** Further vocabulary: the Auth handler *)

(** The [action] query parameter, as the handler reads it. *)
Definition action_of (ev : event) : string :=
  default "" (queryStringParameters ev !! "action").

(** Row [x] carries email [m] and the hash of password [p], both as trimmed
    by the handler. *)
Definition credentials_match `{Platform} (m p : string) (x : user) : Prop :=
  u_email x = PyStr.strip m /\
  u_password_hash x = Auth.hash_password (PyStr.strip p).

(** The body of a successful register or login: the user's public fields
    and the token. *)
Definition session_body `{Platform} (x : user) (token : string) : json :=
  JObj [("user", JObj [("id", JInt (u_id x));
                       ("username", JStr (u_username x));
                       ("email", JStr (u_email x));
                       ("created_at", JStr (isoformat (u_created_at x)))]);
        ("token", JStr token)].

(** ** Further vocabulary: request bodies *)

(** The exception, if any, that reading the string entry [k] of the body
    raises: [json.loads] on a null or malformed body, [.get] on a decoded
    value that is not an object, [.strip] on an entry that is not a string. *)
Definition body_error (k : string) (b : body_in) : option exn :=
  match b with
  | BodyAbsent => None
  | BodyNone => Some TypeError
  | BodyMalformed => Some JSONDecodeError
  | BodyJson (JObj o) =>
      match assoc k o with
      | None | Some (JStr _) => None
      | Some _ => Some AttributeError
      end
  | BodyJson _ => Some AttributeError
  end.

(** The body has no entry [k]: there is no body at all, or it decodes to an
    object without that key. *)
Definition lacks (k : string) (b : body_in) : Prop :=
  b = BodyAbsent \/ exists o, b = BodyJson (JObj o) /\ assoc k o = None.

(** ** Further vocabulary: the Topics handler *)

(** The handler takes [usr] as the current user of [ev]: the request
    presents a non-empty token, [usr] is the first row of the users table,
    and its id is not 0. *)
Definition acting_as (ev : event) (s : store) (usr : user) : Prop :=
  (exists h, headers ev = Some h /\
             Topics.no_token (presented_token h) = false) /\
  head (users s) = Some usr /\
  u_id usr <> 0.

(** A POST to [/] whose body carries the string [t] as title. *)
Definition topic_request (ev : event) (t : string) : Prop :=
  method_of ev = "POST" /\ path_of ev = "/" /\
  exists o, body ev = BodyJson (JObj o) /\ field o "title" = JStr t.

(** The path contains [/messages]. *)
Definition messages_path (ev : event) : Prop :=
  PyStr.contains "/messages" (path_of ev) = true.

(** A POST to a messages path whose body carries the string [c] as content
    and [topic_id] as topic_id (null when the key is missing). *)
Definition topic_message_request (ev : event) (c : string) (topic_id : json)
    : Prop :=
  method_of ev = "POST" /\ messages_path ev /\
  exists o, body ev = BodyJson (JObj o) /\
            field o "content" = JStr c /\
            default JNull (assoc "topic_id" o) = topic_id.

(** A GET to a messages path with query parameter topic_id [tid]. *)
Definition thread_request (ev : event) (tid : option string) : Prop :=
  method_of ev = "GET" /\ messages_path ev /\
  queryStringParameters ev !! "topic_id" = tid.

(** The messages of the topic with id [i], in table order. *)
Definition thread (s : store) (i : Z) : list message :=
  filter (fun m => m_topic_id m = Some i) (messages s).

(** The user row that a message's user_id refers to, if any. *)
Definition author (s : store) (m : message) : option user :=
  uid ← m_user_id m;
  List.find (fun u => bool_decide (u_id u = uid)) (users s).

(** One entry of a thread listing: {id, content, created_at, user}, the
    user being null for a message without a known author. *)
Definition thread_entry `{Platform} (s : store) (m : message) : json :=
  JObj [("id", JInt (m_id m));
        ("content", JStr (m_content m));
        ("created_at", JStr (isoformat (m_created_at m)));
        ("user", match author s m with
                 | Some u =>
                     if bool_decide (u_id u = 0) then JNull
                     else JObj [("id", JInt (u_id u));
                                ("username", JStr (u_username u))]
                 | None => JNull
                 end)].

(** Ascending by creation time. *)
Definition older_or_equal (a b : message) : Prop :=
  m_created_at a <= m_created_at b.

(** Every topic and every authored message belongs to a stored user. *)
Definition owners_exist (s : store) : Prop :=
  Forall (fun t => t_user_id t ∈ map u_id (users s)) (topics s) /\
  Forall (fun m => forall i, m_user_id m = Some i -> i ∈ map u_id (users s))
         (messages s).

(** ** Further example requests *)

Definition ex_method (m p : string) : event :=
  Event (Some m) (Some p) (Some ∅) ∅ BodyAbsent.

(** A GET of the thread of topic [tid]. *)
Definition ex_thread (tid : string) : event :=
  Event (Some "GET") (Some "/messages") (Some ∅) {["topic_id" := tid]}
        BodyAbsent.

(** A post of [c] to topic [i], presenting [t] as X-Auth-Token. *)
Definition ex_reply (t c : string) (i : Z) : event :=
  ex_post "/messages" {["X-Auth-Token" := t]}
          (BodyJson (JObj [("content", JStr c); ("topic_id", JInt i)])).
(** * Properties *)

(** ** ORDER BY yields a sorted rearrangement of its input *)

Section OrderByFacts.
Context {A : Type} (before : A -> A -> bool).

Hypothesis before_total : forall a b, before a b = false -> before b a = true.
Hypothesis before_trans :
  forall a b c, before a b = true -> before b c = true -> before a c = true.

Lemma insert_row_perm (x : A) (l : list A) : insert_row before x l ≡ₚ x :: l.
Proof.
  induction l as [|y r IH]; simpl; [done|].
  destruct (before x y); [done|].
  rewrite IH. apply Permutation_swap.
Qed.

Lemma order_by_perm (l : list A) : order_by before l ≡ₚ l.
Proof.
  induction l as [|x r IH]; simpl; [done|].
  rewrite insert_row_perm. by rewrite IH.
Qed.

Lemma insert_row_sorted (x : A) (l : list A) :
  StronglySorted (precedes before) l ->
  StronglySorted (precedes before) (insert_row before x l).
Proof.
  induction 1 as [|y r Hr IH Hy]; simpl.
  - repeat constructor.
  - destruct (before x y) eqn:Hxy.
    + constructor; [by constructor|].
      constructor; [done|].
      eapply Forall_impl; [exact Hy|].
      intros z Hz. by apply before_trans with y.
    + constructor; [done|].
      rewrite insert_row_perm. constructor; [|done].
      by apply before_total.
Qed.

Lemma order_by_sorted (l : list A) :
  StronglySorted (precedes before) (order_by before l).
Proof.
  induction l as [|x r IH]; simpl; [constructor|].
  by apply insert_row_sorted.
Qed.

(** The first row of a sorted list precedes every row of it. *)
Lemma sorted_head_precedes (x y : A) (l : list A) :
  before x x = true ->
  StronglySorted (precedes before) (x :: l) -> y ∈ x :: l -> before x y = true.
Proof.
  intros Hrefl Hs Hy. apply StronglySorted_inv in Hs as [_ Hall].
  apply elem_of_cons in Hy as [->|Hy]; [done|].
  rewrite Forall_forall in Hall. by apply Hall.
Qed.
End OrderByFacts.

Lemma strongly_sorted_mono {A : Type} (R R' : A -> A -> Prop) (l : list A) :
  (forall a b, R a b -> R' a b) -> StronglySorted R l -> StronglySorted R' l.
Proof.
  intros HR. induction 1 as [|x r Hr IH Hx]; constructor; [done|].
  eapply Forall_impl; [exact Hx|]. intros y. apply HR.
Qed.

(** Sorting the images of rows is sorting the rows by their images. *)
Lemma insert_row_map {A B : Type} (f : A -> B) (before : B -> B -> bool)
    (x : A) (l : list A) :
  insert_row before (f x) (map f l)
  = map f (insert_row (fun a b => before (f a) (f b)) x l).
Proof.
  induction l as [|y r IH]; simpl; [done|].
  destruct (before (f x) (f y)); simpl; [done|]. by rewrite IH.
Qed.

Lemma order_by_map {A B : Type} (f : A -> B) (before : B -> B -> bool)
    (l : list A) :
  order_by before (map f l) = map f (order_by (fun a b => before (f a) (f b)) l).
Proof.
  induction l as [|x r IH]; simpl; [done|].
  by rewrite IH, insert_row_map.
Qed.

(** ** Tactics for running a handler symbolically *)

Ltac unfold_handlers :=
  unfold handler_of, invoke, outcome, store_after,
    Auth.handler, Auth.register, Auth.login,
    Messages.handler,
    Topics.handler, Topics.list_topics, Topics.create_topic,
    Topics.list_topic_messages, Topics.create_topic_message,
    Topics.unauthorized, Topics.get_user_id_from_token,
    Topics.query_checked, Topics.execute_insert_checked,
    get_strip, bind, ret, raise, lift, query, execute_insert, commit,
    get_db_connection, cursor, cur_close, conn_close, log in *.

Ltac run_handler := unfold_handlers; cbn in *.

Ltac split_cases := repeat (case_match; cbn in *; simplify_eq).

Section AppendOnly.
Context `{Platform}.

Lemma extends_refl (s : store) : extends s s.
Proof. by repeat split. Qed.

Lemma extends_user (s : store) (u : user) n1 n2 n3 :
  extends s (Store (users s ++ [u]) (topics s) (messages s) n1 n2 n3).
Proof. repeat split; cbn; [by apply prefix_app_r|done..]. Qed.

Lemma extends_topic (s : store) (t : topic) n1 n2 n3 :
  extends s (Store (users s) (topics s ++ [t]) (messages s) n1 n2 n3).
Proof. repeat split; cbn; [done|by apply prefix_app_r|done]. Qed.

Lemma extends_message (s : store) (m : message) n1 n2 n3 :
  extends s (Store (users s) (topics s) (messages s ++ [m]) n1 n2 n3).
Proof. repeat split; cbn; [done..|by apply prefix_app_r]. Qed.

Lemma extends_topic_message (e : env) (content : string) (user_id : Z)
    (topic_id : json) (s s' : store) (m : message) :
  Topics.insert_topic_message e content user_id topic_id s = Some (m, s') ->
  extends s s'.
Proof.
  unfold Topics.insert_topic_message. intros Hins.
  destruct (pg_int topic_id); cbn in Hins; simplify_eq.
  apply extends_message.
Qed.

(** C9: whatever the request and whatever the outcome, the committed store
    after an invocation of any of the three handlers contains every row of
    the store before it, unchanged and at its place; rows are only added. *)
Theorem handlers_append_only (h : handler_name) (ev : event) (e : env)
    (s : store) :
  extends s (store_after (invoke (handler_of h) ev e s)).
Proof.
  destruct h; run_handler; split_cases;
    first [ apply extends_refl | apply extends_user
          | apply extends_topic | apply extends_message
          | by eapply extends_topic_message ].
Qed.
End AppendOnly.

Section Envelope.
Context `{Platform}.

(** C3, as amended: for every handler and every request other than OPTIONS,
    exactly one store connection is acquired, first of all; and whenever
    the handler returns a response, with a success or an error status, that
    connection has been released exactly once, as the last connection call
    before the return. *)
Theorem connection_released_on_return (h : handler_name) (ev : event)
    (e : env) (s : store) :
  method_of ev <> "OPTIONS" ->
  let rw := invoke (handler_of h) ev e s in
  occurrences EvConnect (trace rw.2) = 1%nat /\
  head (trace rw.2) = Some EvConnect /\
  forall resp, outcome rw = Val resp ->
    conn rw.2 = None /\
    occurrences EvClose (trace rw.2) = 1%nat /\
    last (trace rw.2) = Some EvClose.
Proof.
  unfold method_of. intros Hm%String.eqb_neq.
  destruct h; run_handler; rewrite Hm; split_cases; by repeat split.
Qed.

(** X23: an invocation that ends in an exception never reached a
    [conn.close()]: the connection it acquired is still open. *)
Lemma connection_open_on_exception (h : handler_name) (ev : event) (e : env)
    (s : store) (x : exn) :
  outcome (invoke (handler_of h) ev e s) = Exc x ->
  is_Some (conn (invoke (handler_of h) ev e s).2) /\
  occurrences EvClose (trace (invoke (handler_of h) ev e s).2) = 0%nat.
Proof.
  intros Hrun. destruct h; run_handler; split_cases; by split; [eexists|].
Qed.

(** C8: every response of any of the three handlers carries
    Access-Control-Allow-Origin: * and, when it has a body, Content-Type:
    application/json; and every response with status 400, 401, 404, 405 or
    409 has a body of exactly the shape {error: message}, the message being
    one of the handlers' literal texts. *)
Theorem error_envelope (h : handler_name) (ev : event) (e : env) (s : store)
    (resp : response) :
  outcome (invoke (handler_of h) ev e s) = Val resp ->
  assoc "Access-Control-Allow-Origin" (resp_headers resp) = Some "*" /\
  (resp_body resp <> BodyEmpty ->
   assoc "Content-Type" (resp_headers resp) = Some "application/json") /\
  (statusCode resp ∈ error_statuses ->
   exists msg, msg ∈ error_messages /\
               resp_body resp = BodyDumps (JObj [("error", JStr msg)])).
Proof.
  intros Hrun.
  destruct h; run_handler; split_cases;
    (split; [done|]; split; [done|]);
    unfold error_statuses, error_messages;
    intros Hst%list_elem_of_In; cbn in Hst;
    first [ by intuition lia
          | eexists; (split; [|reflexivity]);
            apply list_elem_of_In; cbn; tauto ].
Qed.
End Envelope.

(** ** Python strings *)

Lemma falsy_true (s : string) : PyStr.falsy s = true <-> s = "".
Proof. by destruct s. Qed.

Lemma falsy_false (s : string) : PyStr.falsy s = false <-> s <> "".
Proof. by destruct s. Qed.

(** ** Registration and login *)

Section AuthFacts.
Context `{Platform}.

(** What a registration request does, branch by branch. *)
Lemma register_runs (ev : event) (e : env) (s : store) (u m p : string) :
  register_request ev u m p ->
  invoke Auth.handler ev e s =
    let username := PyStr.strip u in
    let email := PyStr.strip m in
    let password := PyStr.strip p in
    if PyStr.falsy username || PyStr.falsy email || PyStr.falsy password then
      (Val (error_response 400 "All fields are required"),
       World s None [EvConnect; EvCursor; EvCursorClose; EvClose])
    else
      match Auth.select_existing username email s with
      | Some _ =>
          (Val (error_response 409 "Username or email already exists"),
           World s None [EvConnect; EvCursor; EvCursorClose; EvClose])
      | None =>
          let '(user, s') :=
            Auth.insert_user e username email (Auth.hash_password password) s in
          (Val (json_response 201 (Auth.session_json user (fresh_token e))),
           World s' None
                 [EvConnect; EvCursor; EvCommit; EvCursorClose; EvClose])
      end.
Proof.
  unfold register_request, method_of, field.
  intros (Hm & Ha & o & Hb & Hu & He & Hp).
  run_handler. rewrite Hm, Ha, Hb. simpl. rewrite Hu, He, Hp.
  by split_cases.
Qed.

(** What a login request does, branch by branch. *)
Lemma login_runs (ev : event) (e : env) (s : store) (m p : string) :
  login_request ev m p ->
  invoke Auth.handler ev e s =
    let email := PyStr.strip m in
    let password := PyStr.strip p in
    (if PyStr.falsy email || PyStr.falsy password then
       Val (error_response 400 "Email and password are required")
     else
       match Auth.select_credentials email (Auth.hash_password password) s with
       | None => Val (error_response 401 "Invalid credentials")
       | Some user =>
           Val (json_response 200 (Auth.session_json user (fresh_token e)))
       end,
     World s None [EvConnect; EvCursor; EvCursorClose; EvClose]).
Proof.
  unfold login_request, method_of, field.
  intros (Hm & Ha & o & Hb & He & Hp).
  run_handler. rewrite Hm, Ha, Hb. simpl. rewrite He, Hp.
  by split_cases.
Qed.

Lemma select_existing_some (username email : string) (s : store) :
  is_Some (Auth.select_existing username email s) <->
  exists x, x ∈ users s /\ (u_username x = username \/ u_email x = email).
Proof.
  unfold Auth.select_existing. split.
  - intros [x Hx]. apply find_some in Hx as [Hin Hx].
    exists x. split; [by apply list_elem_of_In|].
    apply orb_true_iff in Hx as [Hx%String.eqb_eq|Hx%String.eqb_eq]; auto.
  - intros (x & Hin & Hx).
    destruct (List.find _ (users s)) eqn:Hf; [by eexists|].
    apply find_none with (x := x) in Hf; [|by apply list_elem_of_In].
    apply orb_false_iff in Hf as [Hu%String.eqb_neq He%String.eqb_neq].
    by destruct Hx.
Qed.

(** A registration that passes both checks appends one row, holding the
    trimmed username and email and the hash of the trimmed password. *)
Lemma register_inserts_trimmed (ev : event) (e : env) (s : store)
    (u m p : string) :
  register_request ev u m p ->
  PyStr.strip u <> "" -> PyStr.strip m <> "" -> PyStr.strip p <> "" ->
  Auth.select_existing (PyStr.strip u) (PyStr.strip m) s = None ->
  users (store_after (invoke Auth.handler ev e s))
  = users s ++ [User (next_user_id s) (PyStr.strip u) (PyStr.strip m)
                     (Auth.hash_password (PyStr.strip p)) (now e)].
Proof.
  intros Hreq Hu%falsy_false Hm%falsy_false Hp%falsy_false Hnew.
  rewrite (register_runs _ _ _ _ _ _ Hreq). cbn zeta.
  by rewrite Hu, Hm, Hp, Hnew.
Qed.

(** C5: registration trims the three fields; whenever the trimmed
    username, email or password is empty (blank or whitespace-only, in any
    combination), the answer is 400 with "All fields are required" and the
    store is unchanged. *)
Theorem register_blank_field (ev : event) (e : env) (s : store)
    (u m p : string) :
  register_request ev u m p ->
  PyStr.strip u = "" \/ PyStr.strip m = "" \/ PyStr.strip p = "" ->
  outcome (invoke Auth.handler ev e s)
    = Val (error_response 400 "All fields are required") /\
  store_after (invoke Auth.handler ev e s) = s.
Proof.
  intros Hreq Hblank. rewrite (register_runs _ _ _ _ _ _ Hreq). cbn zeta.
  assert (PyStr.falsy (PyStr.strip u) || PyStr.falsy (PyStr.strip m)
          || PyStr.falsy (PyStr.strip p) = true) as ->; [|done].
  rewrite !orb_true_iff, !falsy_true. tauto.
Qed.

(** C4, as amended: a registration is answered 409 exactly when its three
    trimmed fields are non-empty and the store already holds a user whose
    username equals the trimmed username or whose email equals the trimmed
    email (exact, case-sensitive comparison), for every store; and then
    nothing is inserted. *)
Theorem register_conflict (ev : event) (e : env) (s : store)
    (u m p : string) :
  register_request ev u m p ->
  exists resp,
    outcome (invoke Auth.handler ev e s) = Val resp /\
    (statusCode resp = 409 <->
     PyStr.strip u <> "" /\ PyStr.strip m <> "" /\ PyStr.strip p <> "" /\
     exists x, x ∈ users s /\
               (u_username x = PyStr.strip u \/ u_email x = PyStr.strip m)) /\
    (statusCode resp = 409 -> store_after (invoke Auth.handler ev e s) = s).
Proof.
  intros Hreq. rewrite (register_runs _ _ _ _ _ _ Hreq). cbn zeta.
  pose proof (select_existing_some (PyStr.strip u) (PyStr.strip m) s) as Hex.
  destruct (PyStr.falsy (PyStr.strip u)) eqn:Hu; cbn [orb].
  { apply falsy_true in Hu. eexists. split; [done|]. split; [|done].
    split; [done|]. by intros [? _]. }
  destruct (PyStr.falsy (PyStr.strip m)) eqn:Hm; cbn [orb].
  { apply falsy_true in Hm. eexists. split; [done|]. split; [|done].
    split; [done|]. by intros (_ & ? & _). }
  destruct (PyStr.falsy (PyStr.strip p)) eqn:Hp; cbn [orb].
  { apply falsy_true in Hp. eexists. split; [done|]. split; [|done].
    split; [done|]. by intros (_ & _ & ? & _). }
  apply falsy_false in Hu, Hm, Hp.
  destruct (Auth.select_existing _ _ s) as [x|] eqn:Hsel; cbn.
  - eexists. split; [done|]. split; [|done].
    split; [intros _; repeat (split; [done|]); by apply Hex|done].
  - eexists. split; [done|]. cbn. split; [|done].
    split; [done|]. intros (_ & _ & _ & Hx%Hex). by destruct Hx.
Qed.

(** After an insertion that the existence check allowed, the credentials
    of the new row select that row and no older one. *)
Lemma select_credentials_new (l : list user) (x : user) :
  List.find (fun y => String.eqb (u_username y) (u_username x)
                      || String.eqb (u_email y) (u_email x)) l = None ->
  List.find (fun y => String.eqb (u_email y) (u_email x)
                      && String.eqb (u_password_hash y) (u_password_hash x))
            (l ++ [x]) = Some x.
Proof.
  induction l as [|y r IH]; cbn.
  - intros _. by rewrite !String.eqb_refl.
  - destruct (String.eqb (u_username y) _ || String.eqb (u_email y) _) eqn:Hy;
      [done|].
    apply orb_false_iff in Hy as [_ ->]. cbn. exact IH.
Qed.

(** C6: when a registration is answered 201, a login that follows it
    immediately with the same email and password is answered 200, and its
    user carries the id that the registration returned. *)
Theorem register_then_login (ev ev' : event) (e e' : env) (s : store)
    (u m p : string) (resp : response) :
  register_request ev u m p ->
  login_request ev' m p ->
  outcome (invoke Auth.handler ev e s) = Val resp ->
  statusCode resp = 201 ->
  exists resp',
    outcome (invoke Auth.handler ev' e'
               (store_after (invoke Auth.handler ev e s))) = Val resp' /\
    statusCode resp' = 200 /\
    is_Some (user_id_of resp) /\
    user_id_of resp' = user_id_of resp.
Proof.
  intros Hreg Hlog.
  rewrite (login_runs _ _ _ _ _ Hlog), (register_runs _ _ _ _ _ _ Hreg).
  cbn zeta.
  destruct (PyStr.falsy (PyStr.strip u)) eqn:Hu; cbn [orb];
    [by intros [= <-]|].
  destruct (PyStr.falsy (PyStr.strip m)) eqn:Hm; cbn [orb];
    [by intros [= <-]|].
  destruct (PyStr.falsy (PyStr.strip p)) eqn:Hp; cbn [orb];
    [by intros [= <-]|].
  destruct (Auth.select_existing _ _ s) eqn:Hsel; [by intros [= <-]|].
  unfold Auth.insert_user, outcome, store_after, Auth.select_credentials.
  cbn. intros [= <-] _.
  pose proof (select_credentials_new (users s)
                (User (next_user_id s) (PyStr.strip u) (PyStr.strip m)
                      (Auth.hash_password (PyStr.strip p)) (now e)) Hsel)
    as Hnew.
  cbn in Hnew. rewrite Hnew.
  eexists. split; [done|]. by repeat split.
Qed.
End AuthFacts.

(** ** The flat board *)

Section MessagesFacts.
Context `{Platform}.

Lemma newest_first_total (a b : message) :
  Messages.newest_first a b = false -> Messages.newest_first b a = true.
Proof. unfold Messages.newest_first. rewrite Z.leb_gt, Z.leb_le. lia. Qed.

Lemma newest_first_trans (a b c : message) :
  Messages.newest_first a b = true -> Messages.newest_first b c = true ->
  Messages.newest_first a c = true.
Proof. unfold Messages.newest_first. rewrite !Z.leb_le. lia. Qed.

Lemma select_messages_perm (s : store) :
  Messages.select_messages s ≡ₚ messages s.
Proof. apply order_by_perm. Qed.

Lemma select_messages_sorted (s : store) :
  StronglySorted newer_or_equal (Messages.select_messages s).
Proof.
  eapply strongly_sorted_mono;
    [|apply (order_by_sorted Messages.newest_first
               newest_first_total newest_first_trans)].
  intros a b. unfold precedes, Messages.newest_first, newer_or_equal.
  by rewrite Z.leb_le.
Qed.

Lemma post_runs (ev : event) (e : env) (s : store) (c : string) :
  post_request ev c ->
  invoke Messages.handler ev e s =
    if PyStr.falsy (PyStr.strip c) then
      (Val (error_response 400 "Content is required"),
       World s None [EvConnect; EvCursor; EvCursorClose; EvClose])
    else
      let '(m, s') := Messages.insert_message e (PyStr.strip c) s in
      (Val (json_response 201 (JObj [("message", board_entry m)])),
       World s' None [EvConnect; EvCursor; EvCommit; EvCursorClose; EvClose]).
Proof.
  unfold post_request, method_of, field. intros (Hm & o & Hb & Hc).
  run_handler. rewrite Hm, Hb. simpl. rewrite Hc.
  by split_cases.
Qed.

Lemma list_runs (ev : event) (e : env) (s : store) :
  method_of ev = "GET" ->
  invoke Messages.handler ev e s =
    (Val (json_response 200
            (JObj [("messages",
                    JArr (map board_entry (Messages.select_messages s)))])),
     World s None [EvConnect; EvCursor; EvCursorClose; EvClose]).
Proof. unfold method_of. intros Hm. run_handler. by rewrite Hm. Qed.

(** A row newer than all others heads the descending listing. *)
Lemma newest_heads_listing (l : list message) (new : message) :
  Forall (fun m => m_created_at m < m_created_at new) l ->
  exists rest,
    order_by Messages.newest_first (l ++ [new]) = new :: rest.
Proof.
  intros Hold.
  pose proof (order_by_perm Messages.newest_first (l ++ [new])) as Hperm.
  pose proof (order_by_sorted Messages.newest_first
                newest_first_total newest_first_trans (l ++ [new])) as Hsort.
  destruct (order_by Messages.newest_first (l ++ [new])) as [|x rest].
  - apply Permutation_nil_l in Hperm. by destruct l.
  - exists rest. f_equal.
    assert (new ∈ x :: rest) as Hnew.
    { rewrite Hperm. apply elem_of_app. right. by apply list_elem_of_singleton. }
    assert (x ∈ l ++ [new]) as Hx.
    { rewrite <- Hperm. by apply elem_of_cons; left. }
    apply (sorted_head_precedes Messages.newest_first x new rest) in Hnew;
      [|unfold Messages.newest_first; apply Z.leb_refl|done].
    apply elem_of_app in Hx as [Hx|Hx]; [|by apply list_elem_of_singleton in Hx].
    rewrite Forall_forall in Hold. apply Hold in Hx.
    unfold Messages.newest_first in Hnew. apply Z.leb_le in Hnew. lia.
Qed.

(** C7, as amended: posting content that is empty after trimming is
    answered 400 and leaves the store unchanged.  Posting content that is
    non-empty after trimming is answered 201 with the new row, and a listing
    that follows returns all messages of the store, the new one among them,
    ordered by creation time descending, each entry shaped
    {id, content, created_at}; the new message is first in it when the
    store's clock at the insertion is past every message stored before. *)
Theorem board_post_then_list (ev ev' : event) (e e' : env) (s : store)
    (c : string) :
  post_request ev c ->
  method_of ev' = "GET" ->
  (PyStr.strip c = "" ->
     outcome (invoke Messages.handler ev e s)
       = Val (error_response 400 "Content is required") /\
     store_after (invoke Messages.handler ev e s) = s) /\
  (PyStr.strip c <> "" ->
   exists (new : message) (ms : list message),
     m_content new = PyStr.strip c /\
     m_created_at new = now e /\
     outcome (invoke Messages.handler ev e s)
       = Val (json_response 201 (JObj [("message", board_entry new)])) /\
     messages (store_after (invoke Messages.handler ev e s))
       = messages s ++ [new] /\
     ms ≡ₚ messages (store_after (invoke Messages.handler ev e s)) /\
     StronglySorted newer_or_equal ms /\
     outcome (invoke Messages.handler ev' e'
                (store_after (invoke Messages.handler ev e s)))
       = Val (json_response 200
                (JObj [("messages", JArr (map board_entry ms))])) /\
     (Forall (fun m => m_created_at m < now e) (messages s) ->
      head ms = Some new)).
Proof.
  intros Hpost Hget.
  rewrite (post_runs _ _ _ _ Hpost). split.
  - intros ->. by cbn.
  - intros Hc%falsy_false. rewrite Hc.
    unfold Messages.insert_message, store_after, outcome. cbn [fst snd db].
    set (new := Message (next_message_id s) (PyStr.strip c) None None (now e)).
    set (s' := Store (users s) (topics s) (messages s ++ [new])
                     (next_user_id s) (next_topic_id s)
                     (next_message_id s + 1)).
    rewrite (list_runs _ _ _ Hget). cbn [fst].
    exists new, (Messages.select_messages s').
    do 4 (split; [done|]).
    split; [apply select_messages_perm|].
    split; [apply select_messages_sorted|]. split; [done|].
    intros Hold.
    destruct (newest_heads_listing (messages s) new Hold) as [rest Hrest].
    unfold Messages.select_messages. cbn [messages s']. by rewrite Hrest.
Qed.
End MessagesFacts.

(** ** The topic listing *)

Section TopicListing.
Context `{Platform}.

Lemma sql_max_cons (x : Z) (r : list Z) :
  Topics.sql_max (x :: r)
  = Some (match Topics.sql_max r with Some y => Z.max x y | None => x end).
Proof. reflexivity. Qed.

Lemma maximum_fold (x : Z) (r : list Z) :
  fold_left Z.max r x
  = match Topics.sql_max r with Some y => Z.max x y | None => x end.
Proof.
  revert x. induction r as [|y r IH]; intros x; [done|].
  rewrite sql_max_cons. cbn [fold_left]. rewrite IH.
  destruct (Topics.sql_max r); lia.
Qed.

Lemma sql_max_maximum (l : list Z) : Topics.sql_max l = maximum l.
Proof.
  destruct l as [|x r]; [done|].
  rewrite sql_max_cons. unfold maximum. by rewrite maximum_fold.
Qed.


Lemma filter_in_topic (s : store) (t : topic) :
  List.filter (Topics.in_topic (t_id t)) (messages s) = messages_of s t.
Proof.
  unfold messages_of. induction (messages s) as [|m r IH]; [done|].
  cbn. rewrite IH. unfold filter at 2, list_filter. fold (@list_filter message).
  unfold Topics.in_topic at 1.
  destruct (decide (m_topic_id m = Some (t_id t))) as [Heq|Hne].
  - rewrite Heq. by rewrite Z.eqb_refl.
  - destruct (m_topic_id m) as [j|]; [|done].
    destruct (Z.eqb_spec j (t_id t)); [by subst|done].
Qed.

Lemma user_by_id_creator (s : store) (t : topic) :
  Topics.user_by_id (t_user_id t) s = creator s t.
Proof.
  unfold Topics.user_by_id, creator.
  induction (users s) as [|u r IH]; [done|]. cbn. rewrite IH.
  destruct (Z.eqb_spec (u_id u) (t_user_id t)) as [Heq|Hne].
  - by rewrite bool_decide_eq_true_2.
  - by rewrite bool_decide_eq_false_2.
Qed.

Lemma topic_group_last_activity (s : store) (t : topic) :
  Topics.r_last_activity (Topics.topic_group s t) = last_message s t.
Proof.
  unfold Topics.topic_group, last_message. cbn.
  by rewrite filter_in_topic, sql_max_maximum.
Qed.

Lemma topic_row_listed (s : store) (t : topic) :
  Topics.topic_row_json (Topics.topic_group s t) = listed_topic s t.
Proof.
  unfold Topics.topic_row_json, listed_topic, last_activity, message_count.
  rewrite topic_group_last_activity.
  unfold Topics.topic_group. cbn.
  rewrite filter_in_topic, user_by_id_creator.
  destruct (creator s t), (last_message s t); reflexivity.
Qed.

Ltac order_facts :=
  unfold Topics.topic_before;
  repeat match goal with
         | |- context [Topics.r_last_activity ?r] =>
             destruct (Topics.r_last_activity r)
         end;
  rewrite ?orb_true_iff, ?orb_false_iff, ?andb_true_iff, ?andb_false_iff,
    ?Z.ltb_lt, ?Z.ltb_ge, ?Z.leb_le, ?Z.leb_gt, ?Z.eqb_eq, ?Z.eqb_neq;
  try done; try lia.

Lemma topic_before_total (a b : Topics.topic_row) :
  Topics.topic_before a b = false -> Topics.topic_before b a = true.
Proof. order_facts. Qed.

Lemma topic_before_trans (a b c : Topics.topic_row) :
  Topics.topic_before a b = true -> Topics.topic_before b c = true ->
  Topics.topic_before a c = true.
Proof. order_facts. Qed.

Lemma topic_before_activity (s : store) (a b : topic) :
  Topics.topic_before (Topics.topic_group s a) (Topics.topic_group s b) = true ->
  activity_order s a b.
Proof.
  unfold Topics.topic_before, activity_order.
  rewrite !topic_group_last_activity.
  destruct (last_message s a), (last_message s b); cbn;
    rewrite ?orb_true_iff, ?andb_true_iff, ?Z.ltb_lt, ?Z.leb_le, ?Z.eqb_eq;
    try done; lia.
Qed.

(** The rows of the listing statement are the grouped rows of the topics,
    rearranged into the listing order. *)
Lemma select_topics_sorted (s : store) :
  exists ts : list topic,
    ts ≡ₚ topics s /\
    StronglySorted (activity_order s) ts /\
    Topics.select_topics s = map (Topics.topic_group s) ts.
Proof.
  set (before := fun a b : topic =>
         Topics.topic_before (Topics.topic_group s a) (Topics.topic_group s b)).
  exists (order_by before (topics s)). split; [apply order_by_perm|]. split.
  - eapply strongly_sorted_mono; [apply topic_before_activity|].
    apply (order_by_sorted before).
    + intros a b. exact (topic_before_total _ _).
    + intros a b c. exact (topic_before_trans _ _ _).
  - exact (order_by_map (Topics.topic_group s) Topics.topic_before (topics s)).
Qed.

(** C2: GET / answers 200 with one entry per topic of the store, each with
    its creating user, the number of messages whose topic_id is the topic,
    and as last_activity the latest created_at of those messages (the
    topic's own created_at when it has none); the entries are ordered by
    latest message descending, every topic without messages after every
    topic with messages; the store is unchanged. *)
Theorem list_topics_listing (ev : event) (e : env) (s : store) :
  method_of ev = "GET" ->
  path_of ev = "/" ->
  exists ts : list topic,
    ts ≡ₚ topics s /\
    StronglySorted (activity_order s) ts /\
    outcome (invoke Topics.handler ev e s)
      = Val (json_response 200
               (JObj [("topics", JArr (map (listed_topic s) ts))])) /\
    store_after (invoke Topics.handler ev e s) = s.
Proof.
  unfold method_of, path_of. intros Hm Hp.
  destruct (select_topics_sorted s) as (ts & Hperm & Hsort & Hsel).
  exists ts. split; [done|]. split; [done|].
  run_handler. rewrite Hm, Hp. cbn. rewrite Hsel.
  rewrite map_map. split; [|done].
  by rewrite (map_ext _ _ (topic_row_listed s)).
Qed.
End TopicListing.

(** ** Identity resolution in the Topics handler *)

Section Identity.
Context `{Platform}.

Lemma no_token_presented (h : gmap string string) (t : string) :
  h !! "X-Auth-Token" = Some t -> t <> "" ->
  Topics.no_token (presented_token h) = false.
Proof. unfold presented_token. intros -> Ht. by destruct t. Qed.

(** C10: for every store and every request to the Topics handler that
    carries a non-empty X-Auth-Token, replacing the value of that header by
    any other non-empty value changes neither the response nor the store
    nor the connection trace; and when the users table is non-empty the
    resolved identity is its first row, whichever token is presented. *)
Theorem token_value_noninterference (ev : event) (e : env) (s : store)
    (h : gmap string string) (t1 t2 : string) :
  headers ev = Some h ->
  h !! "X-Auth-Token" = Some t1 ->
  t1 <> "" -> t2 <> "" ->
  invoke Topics.handler (set_token t2 ev) e s = invoke Topics.handler ev e s /\
  (forall u us, users s = u :: us ->
     resolved_user ev s = Val (Some (u_id u)) /\
     resolved_user (set_token t2 ev) s = Val (Some (u_id u))).
Proof.
  intros Hh Ht1 Hne1 Hne2.
  pose proof (no_token_presented h t1 Ht1 Hne1) as Hno1.
  pose proof (no_token_presented (<["X-Auth-Token" := t2]> h) t2
                (lookup_insert_eq _ _ _) Hne2) as Hno2.
  unfold presented_token in Hno1, Hno2. split.
  - unfold_handlers. cbn [set_token httpMethod path headers body
                            queryStringParameters].
    rewrite Hh. cbn [default from_option id]. by rewrite Hno1, Hno2.
  - intros u us Hus. unfold resolved_user, Topics.get_user_id_from_token.
    cbn [set_token headers]. rewrite Hh. cbn [default from_option id].
    rewrite Hno1, Hno2. unfold_handlers. cbn.
    unfold Topics.select_first_user. by rewrite Hus.
Qed.

(** C1, as amended: for a POST that creates a topic or a topic message,
    the resolved current user is no identity when the token header is
    absent or empty, and otherwise the first row of the users table,
    whatever the token's value (no identity when the table is empty); the
    request is answered 401, with the store unchanged, exactly when there
    is no identity (or the resolved id is 0). *)
Theorem identity_is_first_user (ev : event) (e : env) (s : store)
    (h : gmap string string) :
  headers ev = Some h ->
  creates ev ->
  let identity :=
    if Topics.no_token (presented_token h) then None
    else u_id <$> head (users s) in
  resolved_user ev s = Val identity /\
  (Topics.no_user identity = true ->
     outcome (invoke Topics.handler ev e s)
       = Val (error_response 401 "Unauthorized") /\
     store_after (invoke Topics.handler ev e s) = s) /\
  (Topics.no_user identity = false ->
     forall resp, outcome (invoke Topics.handler ev e s) = Val resp ->
                  statusCode resp <> 401).
Proof.
  unfold creates, method_of, path_of, presented_token.
  intros Hh [Hm Hp]. cbn zeta. split; [|split].
  - unfold resolved_user. run_handler. rewrite Hh.
    unfold Topics.select_first_user.
    destruct (Topics.no_token _); [done|]. cbn. by destruct (users s).
  - run_handler. rewrite Hm, Hh. unfold Topics.select_first_user. cbn.
    destruct Hp as [-> | ->]; cbn; intros Hno; split_cases; cbn in *;
      simplify_eq; first [done | congruence].
  - run_handler. rewrite Hm, Hh. unfold Topics.select_first_user. cbn.
    destruct Hp as [-> | ->]; cbn; intros Hno resp Hrun; split_cases;
      cbn in *; simplify_eq; cbn; first [done | congruence].
Qed.
End Identity.


(** * Further properties of the handlers *)

(** ** Trimming *)

Lemma rstrip_cons (c : ascii) (r : string) :
  PyStr.rstrip (String c r)
  = match PyStr.rstrip r with
    | EmptyString => if PyStr.isspace c then EmptyString else String c EmptyString
    | r' => String c r'
    end.
Proof. reflexivity. Qed.

Lemma rstrip_idempotent (s : string) :
  PyStr.rstrip (PyStr.rstrip s) = PyStr.rstrip s.
Proof.
  induction s as [|c r IH]; [done|]. rewrite rstrip_cons.
  destruct (PyStr.rstrip r) as [|d q] eqn:Hq.
  - destruct (PyStr.isspace c) eqn:Hc; [done|].
    rewrite rstrip_cons. cbn. by rewrite Hc.
  - rewrite rstrip_cons. by rewrite IH.
Qed.

(** Right-trimming keeps a first character that is not whitespace. *)
Lemma rstrip_head (c : ascii) (r : string) :
  PyStr.isspace c = false ->
  exists q, PyStr.rstrip (String c r) = String c q.
Proof.
  intros Hc. rewrite rstrip_cons. destruct (PyStr.rstrip r); [|by eexists].
  rewrite Hc. by eexists.
Qed.

(** Left-trimming yields the empty string or a string that starts with a
    character that is not whitespace. *)
Lemma lstrip_head (s : string) :
  PyStr.lstrip s = "" \/
  exists c r, PyStr.lstrip s = String c r /\ PyStr.isspace c = false.
Proof.
  induction s as [|c r IH]; [by left|]. cbn.
  destruct (PyStr.isspace c) eqn:Hc; [done|]. right. by exists c, r.
Qed.

Lemma strip_idempotent (s : string) :
  PyStr.strip (PyStr.strip s) = PyStr.strip s.
Proof.
  unfold PyStr.strip.
  destruct (lstrip_head s) as [-> | (c & r & -> & Hc)]; [done|].
  destruct (rstrip_head c r Hc) as [q Hq]. rewrite Hq.
  cbn [PyStr.lstrip]. rewrite Hc. rewrite <- Hq. apply rstrip_idempotent.
Qed.

Lemma strip_trimmed (s : string) : PyStr.strip s <> "" -> trimmed (PyStr.strip s).
Proof. intros Hs. split; [done|apply strip_idempotent]. Qed.

(** ** What an invocation does to the store *)

Section Effects.
Context `{Platform}.

Lemma str_strip_val (v : json) (x : string) :
  str_strip v = Val x -> exists s, v = JStr s /\ x = PyStr.strip s.
Proof. destruct v; cbn; intros; simplify_eq. by eexists. Qed.

(** Exposes what the checks on a path established. *)
Ltac expose_checks :=
  repeat match goal with
         | Hs : str_strip _ = Val _ |- _ =>
             apply str_strip_val in Hs as (? & -> & ->)
         | Hb : _ || _ = false |- _ => apply orb_false_iff in Hb as [? ?]
         | Hf : PyStr.falsy _ = false |- _ => apply falsy_false in Hf
         | Hn : negb _ = false |- _ => apply negb_false_iff in Hn
         | Hz : (_ =? 0) = false |- _ => apply Z.eqb_neq in Hz
         end.

(** Every invocation of every handler leaves the store as it was or performs
    exactly one guarded insertion. *)
Lemma invocation_effect (h : handler_name) (ev : event) (e : env) (s : store) :
  effect e s (store_after (invoke (handler_of h) ev e s)).
Proof.
  destruct h; run_handler; split_cases; expose_checks;
    first [ apply effect_none
          | by apply (effect_user e s)
          | by apply (effect_message e s)
          | by eapply (effect_topic e s)
          | by eapply (effect_topic_message e s) ].
Qed.

Lemma select_existing_none (username email : string) (s : store) :
  Auth.select_existing username email s = None ->
  (username ∉ map u_username (users s)) /\ (email ∉ map u_email (users s)).
Proof.
  intros Hnone.
  split; intros (x & Hx & Hin)%list_elem_of_fmap;
    (assert (is_Some (Auth.select_existing username email s)) as [? Hsome];
     [apply select_existing_some; exists x; split; [done|]; auto
     |congruence]).
Qed.

(** X8: every handler keeps usernames and emails unique: if no two stored
    users share a username and no two share an email before an invocation,
    the same holds after it. *)
Theorem unique_credentials_preserved (h : handler_name) (ev : event) (e : env)
    (s : store) :
  unique_credentials s ->
  unique_credentials (store_after (invoke (handler_of h) ev e s)).
Proof.
  intros [Hnames Hemails].
  destruct (invocation_effect h ev e s)
    as [|u m p _ _ _ Hnew| | |c usr tj msg s' _ _ _ _ Hins]; try done.
  - apply select_existing_none in Hnew as [Hu Hm].
    unfold unique_credentials. cbn. rewrite !map_app. cbn.
    split; apply NoDup_app; (split; [done|]);
      (split; [|apply NoDup_singleton]);
      intros x Hx ->%list_elem_of_singleton; done.
  - unfold Topics.insert_topic_message in Hins.
    destruct (pg_int tj); cbn in Hins; by simplify_eq.
Qed.

(** X25: every handler keeps stored text trimmed: if every stored username,
    email, topic title and message content is non-empty and free of
    surrounding whitespace before an invocation, the same holds after it. *)
Theorem stored_text_trimmed_preserved (h : handler_name) (ev : event)
    (e : env) (s : store) :
  stored_text_trimmed s ->
  stored_text_trimmed (store_after (invoke (handler_of h) ev e s)).
Proof.
  intros (Hu & Ht & Hm).
  destruct (invocation_effect h ev e s)
    as [|u m p Hu' Hm' _ _|c Hc|t usr Ht' _ _|c usr tj msg s' Hc _ _ _ Hins];
    [done|..]; unfold stored_text_trimmed.
  - cbn. split; [|done]. apply Forall_app. split; [done|].
    repeat constructor; cbn; by try apply strip_idempotent.
  - cbn. split; [done|]. split; [done|]. apply Forall_app. split; [done|].
    repeat constructor; cbn; by try apply strip_idempotent.
  - cbn. split; [done|]. split; [|done]. apply Forall_app. split; [done|].
    repeat constructor; cbn; by try apply strip_idempotent.
  - unfold Topics.insert_topic_message in Hins.
    destruct (pg_int tj); cbn in Hins; simplify_eq. cbn.
    split; [done|]. split; [done|]. apply Forall_app. split; [done|].
    repeat constructor; cbn; by try apply strip_idempotent.
Qed.
End Effects.

(** ** Properties shared by the three handlers *)

Section Shared.
Context `{Platform}.

(** X1: an OPTIONS request to any handler is answered 200 with an empty
    body and the preflight headers, whatever its path, headers and body;
    no connection is acquired and the store is left alone. *)
Theorem options_preflight (h : handler_name) (ev : event) (e : env)
    (s : store) :
  method_of ev = "OPTIONS" ->
  invoke (handler_of h) ev e s
  = (Val (Response 200
            [("Access-Control-Allow-Origin", "*");
             ("Access-Control-Allow-Methods", "GET, POST, OPTIONS");
             ("Access-Control-Allow-Headers", allowed_headers h);
             ("Access-Control-Max-Age", "86400")]
            BodyEmpty false),
     World s None []).
Proof. unfold method_of. intros Hm. destruct h; run_handler; by rewrite Hm. Qed.

(** X22: an invocation that ends in an exception has committed nothing: the
    store is exactly as before. *)
Theorem exception_leaves_store (h : handler_name) (ev : event) (e : env)
    (s : store) (x : exn) :
  outcome (invoke (handler_of h) ev e s) = Exc x ->
  store_after (invoke (handler_of h) ev e s) = s.
Proof. intros Hrun. destruct h; run_handler; by split_cases. Qed.

(** X24: a request whose method is not POST never changes the store, in any
    handler and whatever the outcome. *)
Theorem read_only_methods (h : handler_name) (ev : event) (e : env)
    (s : store) :
  method_of ev <> "POST" ->
  store_after (invoke (handler_of h) ev e s) = s.
Proof.
  unfold method_of. intros Hm%String.eqb_neq.
  destruct h; run_handler; rewrite Hm; by split_cases.
Qed.

Lemma insert_topic_message_rows (e : env) (content : string) (user_id : Z)
    (topic_id : json) (s s' : store) (m : message) :
  Topics.insert_topic_message e content user_id topic_id s = Some (m, s') ->
  rows s' = S (rows s).
Proof.
  unfold Topics.insert_topic_message. intros Hins.
  destruct (pg_int topic_id); cbn in Hins; simplify_eq.
  unfold rows. cbn. rewrite length_app. cbn. lia.
Qed.

(** X26: the store changes exactly when the answer is 201: a response with
    status 201 comes with exactly one new row, and with any other status
    the store is as before. *)
Theorem created_iff_inserted (h : handler_name) (ev : event) (e : env)
    (s : store) (resp : response) :
  outcome (invoke (handler_of h) ev e s) = Val resp ->
  (statusCode resp = 201 ->
   rows (store_after (invoke (handler_of h) ev e s)) = S (rows s)) /\
  (statusCode resp <> 201 ->
   store_after (invoke (handler_of h) ev e s) = s).
Proof.
  intros Hrun.
  destruct h; run_handler; split_cases; (split; [|done]); try done;
    intros _; cbn in *; simplify_eq;
    first [ by eapply insert_topic_message_rows
          | unfold rows; cbn; rewrite length_app; cbn; lia ].
Qed.

(** X9: tokens are never stored: the committed store and the connection
    trace after an invocation do not depend on the token the invocation
    draws, and the Messages and Topics handlers do not use it at all. *)
Theorem token_never_stored (h : handler_name) (ev : event) (clock : Z)
    (t1 t2 : string) (s : store) :
  (invoke (handler_of h) ev (Env clock t1) s).2
  = (invoke (handler_of h) ev (Env clock t2) s).2 /\
  (h <> AuthHandler ->
   invoke (handler_of h) ev (Env clock t1) s
   = invoke (handler_of h) ev (Env clock t2) s).
Proof.
  destruct h; run_handler; split_cases; try done; split; try done;
    unfold Topics.insert_topic_message in *; cbn in *; congruence.
Qed.
End Shared.

(** ** The Auth handler *)

Section AuthMore.
Context `{Platform}.

Lemma select_credentials_some (m p : string) (s : store) (x : user) :
  Auth.select_credentials (PyStr.strip m)
    (Auth.hash_password (PyStr.strip p)) s = Some x ->
  x ∈ users s /\ credentials_match m p x.
Proof.
  unfold Auth.select_credentials. intros [Hin Hx]%find_some.
  apply andb_true_iff in Hx as [Hm%String.eqb_eq Hp%String.eqb_eq].
  split; [by apply list_elem_of_In|done].
Qed.

Lemma select_credentials_none (m p : string) (s : store) (x : user) :
  Auth.select_credentials (PyStr.strip m)
    (Auth.hash_password (PyStr.strip p)) s = None ->
  x ∈ users s -> ~ credentials_match m p x.
Proof.
  unfold Auth.select_credentials. intros Hnone Hin%list_elem_of_In [Hm Hp].
  apply (find_none _ _ Hnone) in Hin.
  apply andb_false_iff in Hin as [Hin%String.eqb_neq|Hin%String.eqb_neq]; done.
Qed.

(** X2: a login whose trimmed email or trimmed password is empty is
    answered 400 with "Email and password are required"; the store is
    unchanged. *)
Theorem login_blank_field (ev : event) (e : env) (s : store) (m p : string) :
  login_request ev m p ->
  PyStr.strip m = "" \/ PyStr.strip p = "" ->
  outcome (invoke Auth.handler ev e s)
    = Val (error_response 400 "Email and password are required") /\
  store_after (invoke Auth.handler ev e s) = s.
Proof.
  intros Hreq Hblank. rewrite (login_runs _ _ _ _ _ Hreq). cbn zeta.
  assert (PyStr.falsy (PyStr.strip m) || PyStr.falsy (PyStr.strip p) = true)
    as ->; [|done].
  rewrite orb_true_iff, !falsy_true. tauto.
Qed.

(** X3: a login with non-empty trimmed email and password never changes
    the store.  If some stored user has that email and the hash of that
    password, the answer is 200 with the public fields of such a user (id,
    username, email, created_at, never the password hash) and a fresh
    token; if none has, the answer is 401 with "Invalid credentials",
    whether the email is unknown or the password is wrong. *)
Theorem login_authenticates (ev : event) (e : env) (s : store) (m p : string) :
  login_request ev m p ->
  PyStr.strip m <> "" -> PyStr.strip p <> "" ->
  store_after (invoke Auth.handler ev e s) = s /\
  ((exists x, x ∈ users s /\ credentials_match m p x) ->
   exists x, x ∈ users s /\ credentials_match m p x /\
     outcome (invoke Auth.handler ev e s)
       = Val (json_response 200 (session_body x (fresh_token e)))) /\
  ((forall x, x ∈ users s -> ~ credentials_match m p x) ->
   outcome (invoke Auth.handler ev e s)
     = Val (error_response 401 "Invalid credentials")).
Proof.
  intros Hreq Hm%falsy_false Hp%falsy_false.
  rewrite (login_runs _ _ _ _ _ Hreq). cbn zeta. rewrite Hm, Hp. cbn [orb].
  split; [done|].
  destruct (Auth.select_credentials _ _ s) as [x|] eqn:Hsel.
  - apply select_credentials_some in Hsel as [Hin Hx]. split.
    + intros _. by exists x.
    + intros Hnone. by destruct (Hnone x Hin).
  - split; [|done]. intros (x & Hin & Hx).
    by destruct (select_credentials_none m p s x Hsel Hin).
Qed.

(** X4: the Auth handler answers 404 with "Not found" to every request
    that is neither OPTIONS nor a POST with action register or login (a GET
    with action=register included); the store is unchanged and the
    connection is released. *)
Theorem auth_unknown_action (ev : event) (e : env) (s : store) :
  method_of ev <> "OPTIONS" ->
  method_of ev <> "POST" \/
    (action_of ev <> "register" /\ action_of ev <> "login") ->
  invoke Auth.handler ev e s
  = (Val (error_response 404 "Not found"),
     World s None [EvConnect; EvCursor; EvCursorClose; EvClose]).
Proof.
  unfold method_of, action_of.
  intros Hopt%String.eqb_neq Hroute. run_handler. rewrite Hopt.
  destruct Hroute as [Hm%String.eqb_neq|[Hr%String.eqb_neq Hl%String.eqb_neq]].
  - by rewrite Hm.
  - by rewrite Hr, Hl, !andb_false_r.
Qed.

(** X5: a registration with non-empty trimmed fields that no stored user
    shares a username or email with is answered 201 with the new user's
    id, trimmed username, trimmed email and created_at and with the fresh
    token; exactly one row is added to the users table, holding the hash of
    the trimmed password, and neither the password nor its hash is in the
    response. *)
Theorem register_created (ev : event) (e : env) (s : store) (u m p : string) :
  register_request ev u m p ->
  PyStr.strip u <> "" -> PyStr.strip m <> "" -> PyStr.strip p <> "" ->
  (forall x, x ∈ users s ->
     u_username x <> PyStr.strip u /\ u_email x <> PyStr.strip m) ->
  let new := User (next_user_id s) (PyStr.strip u) (PyStr.strip m)
                  (Auth.hash_password (PyStr.strip p)) (now e) in
  outcome (invoke Auth.handler ev e s)
    = Val (json_response 201 (session_body new (fresh_token e))) /\
  users (store_after (invoke Auth.handler ev e s)) = users s ++ [new] /\
  topics (store_after (invoke Auth.handler ev e s)) = topics s /\
  messages (store_after (invoke Auth.handler ev e s)) = messages s.
Proof.
  intros Hreq Hu%falsy_false Hm%falsy_false Hp%falsy_false Hfree.
  rewrite (register_runs _ _ _ _ _ _ Hreq). cbn zeta.
  rewrite Hu, Hm, Hp. cbn [orb].
  destruct (Auth.select_existing _ _ s) as [x|] eqn:Hsel; [|done].
  assert (is_Some (Auth.select_existing (PyStr.strip u) (PyStr.strip m) s))
    as (y & Hy & [Hn|He])%select_existing_some by (by eexists);
    by destruct (Hfree y Hy).
Qed.

(** What a registration answered 201 went through. *)
Lemma register_201_inv (ev : event) (e : env) (s : store) (u m p : string)
    (resp : response) :
  register_request ev u m p ->
  outcome (invoke Auth.handler ev e s) = Val resp ->
  statusCode resp = 201 ->
  Auth.select_existing (PyStr.strip u) (PyStr.strip m) s = None /\
  store_after (invoke Auth.handler ev e s)
  = Store (users s ++ [User (next_user_id s) (PyStr.strip u) (PyStr.strip m)
                            (Auth.hash_password (PyStr.strip p)) (now e)])
          (topics s) (messages s)
          (next_user_id s + 1) (next_topic_id s) (next_message_id s).
Proof.
  intros Hreq. rewrite (register_runs _ _ _ _ _ _ Hreq). cbn zeta.
  destruct (PyStr.falsy _ || _ || _); [intros [= <-]; done|].
  destruct (Auth.select_existing _ _ s); [intros [= <-]; done|].
  done.
Qed.

(** X6: after a registration answered 201, every registration that has
    non-empty trimmed fields and the same trimmed username or the same
    trimmed email is answered 409, and adds nothing. *)
Theorem register_twice_conflict (ev ev' : event) (e e' : env) (s : store)
    (u m p u' m' p' : string) (resp : response) :
  register_request ev u m p ->
  outcome (invoke Auth.handler ev e s) = Val resp ->
  statusCode resp = 201 ->
  register_request ev' u' m' p' ->
  PyStr.strip u' <> "" -> PyStr.strip m' <> "" -> PyStr.strip p' <> "" ->
  PyStr.strip u' = PyStr.strip u \/ PyStr.strip m' = PyStr.strip m ->
  outcome (invoke Auth.handler ev' e'
             (store_after (invoke Auth.handler ev e s)))
    = Val (error_response 409 "Username or email already exists") /\
  store_after (invoke Auth.handler ev' e'
                 (store_after (invoke Auth.handler ev e s)))
    = store_after (invoke Auth.handler ev e s).
Proof.
  intros Hreq Hrun H201 Hreq' Hu'%falsy_false Hm'%falsy_false Hp'%falsy_false
    Hsame.
  destruct (register_201_inv _ _ _ _ _ _ _ Hreq Hrun H201) as [_ ->].
  rewrite (register_runs _ _ _ _ _ _ Hreq'). cbn zeta.
  rewrite Hu', Hm', Hp'. cbn [orb].
  match goal with
  | |- context [Auth.select_existing ?a ?b ?s1] =>
      assert (is_Some (Auth.select_existing a b s1)) as [x ->]; [|done]
  end.
  apply select_existing_some. eexists. split.
  - cbn. apply elem_of_app. right. by apply list_elem_of_singleton.
  - cbn. destruct Hsame; auto.
Qed.

(** X7: after a registration answered 201, a login with the registered
    email and a non-empty password whose hash differs from the registered
    one is answered 401. *)
Theorem register_then_wrong_password (ev ev' : event) (e e' : env)
    (s : store) (u m p p' : string) (resp : response) :
  register_request ev u m p ->
  outcome (invoke Auth.handler ev e s) = Val resp ->
  statusCode resp = 201 ->
  login_request ev' m p' ->
  PyStr.strip p' <> "" ->
  Auth.hash_password (PyStr.strip p') <> Auth.hash_password (PyStr.strip p) ->
  outcome (invoke Auth.handler ev' e'
             (store_after (invoke Auth.handler ev e s)))
    = Val (error_response 401 "Invalid credentials").
Proof.
  intros Hreq Hrun H201 Hlog Hp'%falsy_false Hdiff.
  destruct (register_201_inv _ _ _ _ _ _ _ Hreq Hrun H201) as [Hsel ->].
  assert (PyStr.falsy (PyStr.strip m) = false) as Hm.
  { revert Hrun. rewrite (register_runs _ _ _ _ _ _ Hreq). cbn zeta.
    destruct (PyStr.falsy (PyStr.strip m)); [|done].
    rewrite orb_true_r. cbn. by intros [= <-]. }
  rewrite (login_runs _ _ _ _ _ Hlog). cbn zeta. rewrite Hm, Hp'. cbn [orb].
  match goal with
  | |- context [Auth.select_credentials ?a ?b ?s1] =>
      destruct (Auth.select_credentials a b s1) as [x|] eqn:Hcred; [|done]
  end.
  apply select_credentials_some in Hcred as [Hin [Hmail Hhash]].
  cbn in Hin. apply elem_of_app in Hin as [Hin|Hin%list_elem_of_singleton].
  - apply select_existing_none in Hsel as [_ Hfree].
    destruct Hfree. rewrite <- Hmail. by apply list_elem_of_fmap_2.
  - subst x. by cbn in Hhash.
Qed.
End AuthMore.

(** ** The Messages handler *)

Section MessagesMore.
Context `{Platform}.

(** X10: a GET to the Messages handler answers 200 with every message of
    the store, whatever its topic or author, as {id, content, created_at},
    ordered by created_at descending; the store is unchanged. *)
Theorem board_listing (ev : event) (e : env) (s : store) :
  method_of ev = "GET" ->
  exists ms : list message,
    ms ≡ₚ messages s /\
    StronglySorted newer_or_equal ms /\
    outcome (invoke Messages.handler ev e s)
      = Val (json_response 200
               (JObj [("messages", JArr (map board_entry ms))])) /\
    store_after (invoke Messages.handler ev e s) = s.
Proof.
  intros Hget. exists (Messages.select_messages s).
  split; [apply select_messages_perm|].
  split; [apply select_messages_sorted|].
  by rewrite (list_runs _ _ _ Hget).
Qed.

(** X11: a POST to the Messages handler without a body, or whose body is
    an object without a content entry, is answered 400 with "Content is
    required"; the store is unchanged. *)
Theorem post_missing_content (ev : event) (e : env) (s : store) :
  method_of ev = "POST" ->
  lacks "content" (body ev) ->
  outcome (invoke Messages.handler ev e s)
    = Val (error_response 400 "Content is required") /\
  store_after (invoke Messages.handler ev e s) = s.
Proof.
  unfold method_of. intros Hm [Hb|(o & Hb & Hk)]; run_handler;
    rewrite Hm, Hb; cbn; by rewrite ?Hk.
Qed.

(** X12: a POST to the Messages handler whose body is null, is not JSON,
    does not decode to an object, or carries a content that is not a string
    is not answered at all: the handler raises TypeError, JSONDecodeError
    or AttributeError, and nothing is stored. *)
Theorem post_undecodable_raises (ev : event) (e : env) (s : store) (x : exn) :
  method_of ev = "POST" ->
  body_error "content" (body ev) = Some x ->
  outcome (invoke Messages.handler ev e s) = Exc x /\
  store_after (invoke Messages.handler ev e s) = s.
Proof.
  unfold method_of, body_error. intros Hm Hx. run_handler. rewrite Hm. cbn.
  destruct (body ev) as [| | |j]; simplify_eq; cbn; try done.
  destruct j; simplify_eq; cbn; try done.
  destruct (assoc "content" o) as [v|]; [|done].
  destruct v; by simplify_eq.
Qed.

(** X13: the Messages handler answers 405 with "Method not allowed" to
    every method other than OPTIONS, GET and POST; the store is unchanged
    and the connection is released. *)
Theorem messages_method_not_allowed (ev : event) (e : env) (s : store) :
  method_of ev <> "OPTIONS" -> method_of ev <> "GET" ->
  method_of ev <> "POST" ->
  invoke Messages.handler ev e s
  = (Val (error_response 405 "Method not allowed"),
     World s None [EvConnect; EvCursor; EvCursorClose; EvClose]).
Proof.
  unfold method_of.
  intros Ho%String.eqb_neq Hg%String.eqb_neq Hp%String.eqb_neq.
  run_handler. by rewrite Ho, Hg, Hp.
Qed.
End MessagesMore.

(** ** The Topics handler *)

Section TopicsMore.
Context `{Platform}.

Lemma messages_path_not_root (p : string) :
  PyStr.contains "/messages" p = true -> String.eqb p "/" = false.
Proof.
  intros Hp. destruct (String.eqb_spec p "/") as [->|]; [|done].
  by vm_compute in Hp.
Qed.

Lemma create_topic_runs (ev : event) (e : env) (s : store) (usr : user)
    (t : string) :
  acting_as ev s usr -> topic_request ev t ->
  invoke Topics.handler ev e s =
    if PyStr.falsy (PyStr.strip t) then
      (Val (error_response 400 "Title is required"),
       World s None [EvConnect; EvCursor; EvCursor; EvCursorClose;
                     EvCursorClose; EvClose])
    else
      let '(tp, s') := Topics.insert_topic e (PyStr.strip t) (u_id usr) s in
      (Val (json_response 201 (JObj [("topic", Topics.topic_json tp)])),
       World s' None [EvConnect; EvCursor; EvCursor; EvCursorClose; EvCommit;
                      EvCursorClose; EvClose]).
Proof.
  unfold acting_as, topic_request, method_of, path_of, field, presented_token.
  intros ((h & Hh & Hno) & Hu & Hid%Z.eqb_neq) (Hm & Hp & o & Hb & Ht).
  run_handler. rewrite Hm, Hp, Hh, Hno. cbn.
  unfold Topics.select_first_user. rewrite Hu. cbn. rewrite Hid, Hb. cbn.
  rewrite Ht. by split_cases.
Qed.

Lemma create_topic_message_runs (ev : event) (e : env) (s : store)
    (usr : user) (c : string) (topic_id : json) :
  acting_as ev s usr -> topic_message_request ev c topic_id ->
  invoke Topics.handler ev e s =
    if PyStr.falsy (PyStr.strip c) || negb (truthy topic_id) then
      (Val (error_response 400 "Content and topic_id are required"),
       World s None [EvConnect; EvCursor; EvCursor; EvCursorClose;
                     EvCursorClose; EvClose])
    else
      match Topics.insert_topic_message e (PyStr.strip c) (u_id usr)
              topic_id s with
      | Some (m, s') =>
          (Val (json_response 201
                  (JObj [("message", Topics.created_message_json m)])),
           World s' None [EvConnect; EvCursor; EvCursor; EvCursorClose;
                          EvCommit; EvCursorClose; EvClose])
      | None =>
          (Exc DatabaseError,
           World s (Some s) [EvConnect; EvCursor; EvCursor; EvCursorClose])
      end.
Proof.
  unfold acting_as, topic_message_request, messages_path, method_of, path_of,
    field, presented_token.
  intros ((h & Hh & Hno) & Hu & Hid%Z.eqb_neq) (Hm & Hp & o & Hb & Hc & Ht).
  pose proof (messages_path_not_root _ Hp) as Hroot.
  run_handler. rewrite Hm, Hp, Hroot, Hh, Hno. cbn.
  unfold Topics.select_first_user. rewrite Hu. cbn. rewrite Hid, Hb. cbn.
  rewrite Hc, Ht. by split_cases.
Qed.


Lemma thread_runs (ev : event) (e : env) (s : store) (tid : option string) :
  thread_request ev tid ->
  invoke Topics.handler ev e s =
    match tid with
    | Some (String a r) =>
        match Topics.select_topic_messages (String a r) s with
        | Some rows =>
            (Val (json_response 200
                    (JObj [("messages",
                            JArr (map Topics.message_row_json rows))])),
             World s None [EvConnect; EvCursor; EvCursorClose; EvClose])
        | None =>
            (Exc DatabaseError, World s (Some s) [EvConnect; EvCursor])
        end
    | _ =>
        (Val (error_response 400 "topic_id is required"),
         World s None [EvConnect; EvCursor; EvCursorClose; EvClose])
    end.
Proof.
  unfold thread_request, messages_path, method_of, path_of.
  intros (Hm & Hp & Hq). pose proof (messages_path_not_root _ Hp) as Hroot.
  run_handler. rewrite Hm, Hp, Hroot, Hq. cbn. by split_cases.
Qed.

(** X14: a request to create a topic that has a current user and a title
    that is empty after trimming is answered 400 with "Title is required";
    the store is unchanged. *)
Theorem create_topic_blank_title (ev : event) (e : env) (s : store)
    (usr : user) (t : string) :
  acting_as ev s usr -> topic_request ev t ->
  PyStr.strip t = "" ->
  outcome (invoke Topics.handler ev e s)
    = Val (error_response 400 "Title is required") /\
  store_after (invoke Topics.handler ev e s) = s.
Proof.
  intros Hact Hreq Ht. rewrite (create_topic_runs _ _ _ _ _ Hact Hreq).
  by rewrite Ht.
Qed.

(** X16: a GET to a messages path without a topic_id query parameter, or
    with an empty one, is answered 400 with "topic_id is required"; the
    store is unchanged. *)
Theorem thread_missing_topic_id (ev : event) (e : env) (s : store)
    (tid : option string) :
  thread_request ev tid ->
  tid = None \/ tid = Some "" ->
  outcome (invoke Topics.handler ev e s)
    = Val (error_response 400 "topic_id is required") /\
  store_after (invoke Topics.handler ev e s) = s.
Proof.
  intros Hreq Htid. rewrite (thread_runs _ _ _ _ Hreq).
  by destruct Htid as [-> | ->].
Qed.

(** X18: a request to post to a topic that has a current user is answered
    400 with "Content and topic_id are required" when its content is empty
    after trimming or its topic_id is missing, null, 0, false or empty; the
    store is unchanged. *)
Theorem create_topic_message_invalid (ev : event) (e : env) (s : store)
    (usr : user) (c : string) (topic_id : json) :
  acting_as ev s usr -> topic_message_request ev c topic_id ->
  PyStr.strip c = "" \/ truthy topic_id = false ->
  outcome (invoke Topics.handler ev e s)
    = Val (error_response 400 "Content and topic_id are required") /\
  store_after (invoke Topics.handler ev e s) = s.
Proof.
  intros Hact Hreq Hbad.
  rewrite (create_topic_message_runs _ _ _ _ _ _ Hact Hreq).
  assert (PyStr.falsy (PyStr.strip c) || negb (truthy topic_id) = true)
    as ->; [|done].
  destruct Hbad as [-> | ->]; [done|apply orb_true_r].
Qed.

(** X20: the Topics handler answers 404 with "Not found" to every request
    whose method is none of OPTIONS, GET and POST, and to every GET or POST
    whose path is neither [/] nor contains [/messages]; the store is
    unchanged and the connection is released. *)
Theorem topics_unmatched_route (ev : event) (e : env) (s : store) :
  method_of ev <> "OPTIONS" ->
  (method_of ev <> "GET" /\ method_of ev <> "POST") \/
    (path_of ev <> "/" /\ PyStr.contains "/messages" (path_of ev) = false) ->
  invoke Topics.handler ev e s
  = (Val (error_response 404 "Not found"),
     World s None [EvConnect; EvCursor; EvCursorClose; EvClose]).
Proof.
  unfold method_of, path_of.
  intros Ho%String.eqb_neq Hroute. run_handler. rewrite Ho.
  destruct Hroute as [[Hg%String.eqb_neq Hp%String.eqb_neq]
                     |[Hr%String.eqb_neq Hc]].
  - by rewrite Hg, Hp.
  - by rewrite Hr, Hc, !andb_false_r.
Qed.

Lemma oldest_first_total (a b : Topics.message_row) :
  Topics.oldest_first a b = false -> Topics.oldest_first b a = true.
Proof. unfold Topics.oldest_first. rewrite Z.leb_gt, Z.leb_le. lia. Qed.

Lemma oldest_first_trans (a b c : Topics.message_row) :
  Topics.oldest_first a b = true -> Topics.oldest_first b c = true ->
  Topics.oldest_first a c = true.
Proof. unfold Topics.oldest_first. rewrite !Z.leb_le. lia. Qed.

Lemma filter_in_thread (s : store) (i : Z) :
  List.filter (Topics.in_topic i) (messages s) = thread s i.
Proof. exact (filter_in_topic s (Topic i "" 0 0)). Qed.

Lemma user_by_id_find (s : store) (i : Z) :
  Topics.user_by_id i s
  = List.find (fun u => bool_decide (u_id u = i)) (users s).
Proof. exact (user_by_id_creator s (Topic 0 "" i 0)). Qed.

Lemma message_row_listed (s : store) (m : message) :
  Topics.message_row_json (Topics.message_join s m) = thread_entry s m.
Proof.
  unfold Topics.message_row_json, Topics.message_join, thread_entry, author.
  cbn. destruct (m_user_id m) as [uid|]; cbn; [|done].
  rewrite user_by_id_find.
  destruct (List.find _ (users s)) as [u|]; cbn; [|done].
  destruct (Z.eqb_spec (u_id u) 0) as [Hz|Hz].
  - by rewrite bool_decide_eq_true_2.
  - by rewrite bool_decide_eq_false_2.
Qed.

(** The rows of the thread statement are the joined rows of the thread's
    messages, rearranged into ascending order of creation. *)
Lemma select_topic_messages_sorted (s : store) (tid : string) (i : Z) :
  pg_int (JStr tid) = Some i ->
  exists ms : list message,
    ms ≡ₚ thread s i /\
    StronglySorted older_or_equal ms /\
    ms = order_by (fun a b : message => m_created_at a <=? m_created_at b)
                  (thread s i) /\
    Topics.select_topic_messages tid s = Some (map (Topics.message_join s) ms).
Proof.
  intros Hi.
  set (before := fun a b : message => m_created_at a <=? m_created_at b).
  exists (order_by before (thread s i)).
  split; [apply order_by_perm|]. split; [|split; [done|]].
  - eapply strongly_sorted_mono; [|apply (order_by_sorted before)].
    + intros a b. unfold precedes, before, older_or_equal. by rewrite Z.leb_le.
    + intros a b. unfold before. rewrite Z.leb_gt, Z.leb_le. lia.
    + intros a b c. unfold before. rewrite !Z.leb_le. lia.
  - unfold Topics.select_topic_messages. rewrite Hi. cbn.
    rewrite filter_in_thread. f_equal.
    exact (order_by_map (Topics.message_join s) Topics.oldest_first
             (thread s i)).
Qed.

(** X17: a GET to a messages path with a topic_id that the store reads as
    the integer [i] answers 200 with exactly the messages whose topic_id is
    [i], ordered by created_at ascending, each as {id, content, created_at,
    user}, the user being null for a message without a known author; a
    topic_id that the store cannot read as an integer makes the handler
    raise.  Either way the store is unchanged. *)
Theorem thread_listing (ev : event) (e : env) (s : store) (tid : string) :
  thread_request ev (Some tid) ->
  tid <> "" ->
  store_after (invoke Topics.handler ev e s) = s /\
  match pg_int (JStr tid) with
  | Some i =>
      exists ms : list message,
        ms ≡ₚ thread s i /\
        StronglySorted older_or_equal ms /\
        outcome (invoke Topics.handler ev e s)
          = Val (json_response 200
                   (JObj [("messages", JArr (map (thread_entry s) ms))]))
  | None => outcome (invoke Topics.handler ev e s) = Exc DatabaseError
  end.
Proof.
  intros Hreq Htid. rewrite (thread_runs _ _ _ _ Hreq).
  destruct tid as [|a r]; [done|].
  destruct (pg_int (JStr (String a r))) as [i|] eqn:Hi.
  - destruct (select_topic_messages_sorted s (String a r) i Hi)
      as (ms & Hperm & Hsort & _ & ->).
    split; [done|]. exists ms. split; [done|]. split; [done|].
    cbn. rewrite map_map. by rewrite (map_ext _ _ (message_row_listed s)).
  - unfold Topics.select_topic_messages. rewrite Hi. by cbn.
Qed.


End TopicsMore.

(** ** Posting to a topic, then reading *)

Section OrderBySnoc.
Context {A : Type} (before : A -> A -> bool).


End OrderBySnoc.

Section TopicsThread.
Context `{Platform}.

Lemma create_topic_message_201 (ev : event) (e : env) (s : store)
    (usr : user) (c : string) (topic_id : json) (i : Z) :
  acting_as ev s usr -> topic_message_request ev c topic_id ->
  PyStr.strip c <> "" -> truthy topic_id = true ->
  pg_int topic_id = Some i ->
  let new := Message (next_message_id s) (PyStr.strip c) (Some (u_id usr))
                     (Some i) (now e) in
  invoke Topics.handler ev e s
  = (Val (json_response 201
            (JObj [("message", Topics.created_message_json new)])),
     World (Store (users s) (topics s) (messages s ++ [new])
                  (next_user_id s) (next_topic_id s) (next_message_id s + 1))
           None
           [EvConnect; EvCursor; EvCursor; EvCursorClose; EvCommit;
            EvCursorClose; EvClose]).
Proof.
  intros Hact Hreq Hc%falsy_false Htruthy Hi. cbn zeta.
  rewrite (create_topic_message_runs _ _ _ _ _ _ Hact Hreq).
  rewrite Hc, Htruthy. cbn [orb negb].
  unfold Topics.insert_topic_message. by rewrite Hi.
Qed.



(** X21: a message posted to a topic through the Topics handler also shows
    on the flat board: a GET to the Messages handler that follows lists it,
    among all messages of the store. *)
Theorem board_lists_topic_messages (ev ev' : event) (e e' : env) (s : store)
    (usr : user) (c : string) (topic_id : json) (i : Z) :
  acting_as ev s usr -> topic_message_request ev c topic_id ->
  PyStr.strip c <> "" -> truthy topic_id = true ->
  pg_int topic_id = Some i ->
  method_of ev' = "GET" ->
  let new := Message (next_message_id s) (PyStr.strip c) (Some (u_id usr))
                     (Some i) (now e) in
  exists ms : list message,
    new ∈ ms /\
    ms ≡ₚ messages s ++ [new] /\
    outcome (invoke Messages.handler ev' e'
               (store_after (invoke Topics.handler ev e s)))
      = Val (json_response 200
               (JObj [("messages", JArr (map board_entry ms))])).
Proof.
  intros Hact Hreq Hc Htruthy Hi Hget. cbn zeta.
  rewrite (create_topic_message_201 _ _ _ _ _ _ _ Hact Hreq Hc Htruthy Hi).
  unfold store_after. cbn [snd db].
  rewrite (list_runs _ _ _ Hget). cbn [outcome fst].
  eexists. split; [|split; [|reflexivity]].
  - rewrite select_messages_perm. cbn. apply elem_of_app. right.
    by apply list_elem_of_singleton.
  - apply select_messages_perm.
Qed.
End TopicsThread.

(** ** More of what the insertions keep *)

Section Ownership.
Context `{Platform}.

(** X27: a post to the flat board with content that is non-empty after
    trimming appends exactly one message, holding the trimmed content and
    neither a user nor a topic, whatever headers the request carries; the
    answer is 201 with the new row's id, content and created_at. *)
Theorem board_post_created (ev : event) (e : env) (s : store) (c : string) :
  post_request ev c ->
  PyStr.strip c <> "" ->
  let new := Message (next_message_id s) (PyStr.strip c) None None (now e) in
  outcome (invoke Messages.handler ev e s)
    = Val (json_response 201
             (JObj [("message",
                     JObj [("id", JInt (next_message_id s));
                           ("content", JStr (PyStr.strip c));
                           ("created_at", JStr (isoformat (now e)))])])) /\
  messages (store_after (invoke Messages.handler ev e s))
    = messages s ++ [new] /\
  users (store_after (invoke Messages.handler ev e s)) = users s /\
  topics (store_after (invoke Messages.handler ev e s)) = topics s.
Proof.
  intros Hreq Hc%falsy_false. cbn zeta.
  rewrite (post_runs _ _ _ _ Hreq). by rewrite Hc.
Qed.

Lemma head_elem_of {A : Type} (l : list A) (x : A) : head l = Some x -> x ∈ l.
Proof. destruct l; cbn; intros; simplify_eq. by left. Qed.

(** X28: every handler keeps ownership intact: if every topic and every
    authored message belongs to a stored user before an invocation, the same
    holds after it. *)
Theorem owners_exist_preserved (h : handler_name) (ev : event) (e : env)
    (s : store) :
  owners_exist s ->
  owners_exist (store_after (invoke (handler_of h) ev e s)).
Proof.
  intros [Ht Hm].
  destruct (invocation_effect h ev e s)
    as [|u m p _ _ _ _|c _|t usr _ Hhead _|c usr tj msg s' _ Hhead _ _ Hins];
    [done|..]; unfold owners_exist.
  - cbn. rewrite map_app. split.
    + eapply Forall_impl; [exact Ht|]. intros t Hin. cbn in *.
      apply elem_of_app. by left.
    + eapply Forall_impl; [exact Hm|]. intros x Hin i Hi. cbn in *.
      apply elem_of_app. left. by apply Hin.
  - cbn. split; [done|]. apply Forall_app. split; [done|].
    by repeat constructor.
  - cbn. split; [|done]. apply Forall_app. split; [done|].
    repeat constructor. cbn. by apply list_elem_of_fmap_2, head_elem_of.
  - unfold Topics.insert_topic_message in Hins.
    destruct (pg_int tj); cbn in Hins; simplify_eq. cbn.
    split; [done|]. apply Forall_app. split; [done|].
    repeat constructor. cbn. intros i [= <-].
    by apply list_elem_of_fmap_2, head_elem_of.
Qed.
End Ownership.
(** * Examples

    The theorems above at concrete requests, on the example platform. *)

#[local] Existing Instance example_platform.

Lemma ex_alice_request :
  register_request ex_alice " alice " "alice@example.org" "pw-a".
Proof. split; [done|]. split; [done|]. eexists. by repeat split. Defined.

Lemma ex_login_request :
  login_request (ex_login "alice@example.org" "pw-a") "alice@example.org" "pw-a".
Proof. split; [done|]. split; [done|]. eexists. by repeat split. Defined.

(** The two registrations succeed, with ids 1 and 2. *)
Example ex_two_users_rows :
  map (fun u => (u_id u, u_username u)) (users ex_two_users)
  = [(1, "alice"); (2, "bob")] /\
  ex_ledger = [("token-A", 1); ("token-B", 2)].
Proof. by vm_compute. Qed.

(** C1, as stated, fails: token-B was issued to bob (id 2), yet a request
    presenting it is resolved to alice (id 1), the first row; and a token
    that was never issued is resolved to alice as well, so that the topic is
    created instead of the request being answered 401. *)
Lemma identity_ignores_token :
  issued_to ex_ledger (Some "token-B") = Some 2 /\
  resolved_user (ex_create_topic "token-B") ex_two_users = Val (Some 1) /\
  issued_to ex_ledger (Some "never-issued") = None /\
  resolved_user (ex_create_topic "never-issued") ex_two_users = Val (Some 1) /\
  statusCode <$> (match outcome (invoke Topics.handler
                                   (ex_create_topic "never-issued")
                                   (Env 300 "") ex_two_users) with
                  | Val r => Some r
                  | Exc _ => None
                  end) = Some 201 /\
  t_user_id <$> topics (store_after (invoke Topics.handler
                                       (ex_create_topic "never-issued")
                                       (Env 300 "") ex_two_users)) = [1].
Proof. by vm_compute. Qed.

Lemma identity_is_first_user_witness :
  resolved_user (ex_create_topic "token-B") ex_two_users = Val (Some 1) /\
  resolved_user (ex_post "/" ∅ (ex_title "Welcome")) ex_two_users = Val None /\
  outcome (invoke Topics.handler (ex_post "/" ∅ (ex_title "Welcome"))
             (Env 300 "") ex_two_users)
    = Val (error_response 401 "Unauthorized").
Proof.
  destruct (identity_is_first_user (ex_create_topic "token-B") (Env 300 "")
              ex_two_users {["X-Auth-Token" := "token-B"]})
    as (Hfirst & _ & _); [done|by split; [|left]|].
  destruct (identity_is_first_user (ex_post "/" ∅ (ex_title "Welcome"))
              (Env 300 "") ex_two_users ∅)
    as (Hnone & Hdenied & _); [done|by split; [|left]|].
  split; [exact Hfirst|]. split; [exact Hnone|].
  by apply Hdenied.
Defined.

Lemma token_value_noninterference_witness :
  invoke Topics.handler (set_token "never-issued" (ex_create_topic "token-B"))
         (Env 300 "") ex_two_users
  = invoke Topics.handler (ex_create_topic "token-B") (Env 300 "") ex_two_users.
Proof.
  apply (token_value_noninterference (ex_create_topic "token-B") (Env 300 "")
           ex_two_users {["X-Auth-Token" := "token-B"]} "token-B"
           "never-issued"); done.
Defined.

Lemma list_topics_listing_witness :
  exists ts : list topic,
    ts ≡ₚ topics ex_forum /\
    StronglySorted (activity_order ex_forum) ts /\
    outcome (invoke Topics.handler (ex_get "/") (Env 500 "") ex_forum)
      = Val (json_response 200
               (JObj [("topics", JArr (map (listed_topic ex_forum) ts))])) /\
    store_after (invoke Topics.handler (ex_get "/") (Env 500 "") ex_forum)
      = ex_forum.
Proof. apply (list_topics_listing (ex_get "/") (Env 500 "") ex_forum); done. Defined.

(** The listing of the example forum: topic 1, with two messages and last
    activity 320, stands before topic 2, which has no message and reports its
    own creation time 400. *)
Example ex_forum_listing :
  outcome (invoke Topics.handler (ex_get "/") (Env 500 "") ex_forum)
  = Val (json_response 200
           (JObj [("topics",
                   JArr [listed_topic ex_forum (Topic 1 "First" 1 300);
                         listed_topic ex_forum (Topic 2 "Second" 2 400)])])) /\
  message_count ex_forum (Topic 1 "First" 1 300) = 2 /\
  last_activity ex_forum (Topic 1 "First" 1 300) = 320 /\
  message_count ex_forum (Topic 2 "Second" 2 400) = 0 /\
  last_activity ex_forum (Topic 2 "Second" 2 400) = 400.
Proof. by vm_compute. Qed.

(** C3, as stated, fails: a POST whose body is not JSON leaves the Messages
    handler by an exception raised in [json.loads], after the connection was
    acquired and before any [conn.close()]; the connection stays open. *)
Lemma connection_leaks_on_exception :
  method_of ex_malformed_post <> "OPTIONS" /\
  outcome (invoke (handler_of MessagesHandler) ex_malformed_post (Env 0 "")
             empty_store) = Exc JSONDecodeError /\
  conn (invoke (handler_of MessagesHandler) ex_malformed_post (Env 0 "")
          empty_store).2 = Some empty_store /\
  trace (invoke (handler_of MessagesHandler) ex_malformed_post (Env 0 "")
           empty_store).2 = [EvConnect; EvCursor].
Proof. by vm_compute. Qed.

Lemma connection_released_on_return_witness :
  method_of (ex_create_topic "token-B") <> "OPTIONS" /\
  trace (invoke (handler_of TopicsHandler) (ex_create_topic "token-B")
           (Env 300 "") ex_two_users).2
  = [EvConnect; EvCursor; EvCursor; EvCursorClose; EvCommit; EvCursorClose;
     EvClose] /\
  occurrences EvConnect
    (trace (invoke (handler_of TopicsHandler) (ex_create_topic "token-B")
              (Env 300 "") ex_two_users).2) = 1%nat /\
  occurrences EvClose
    (trace (invoke (handler_of TopicsHandler) (ex_create_topic "token-B")
              (Env 300 "") ex_two_users).2) = 1%nat.
Proof.
  destruct (connection_released_on_return TopicsHandler
              (ex_create_topic "token-B") (Env 300 "") ex_two_users)
    as (Hone & _ & Hret); [done|].
  destruct (Hret _ eq_refl) as (_ & Hclosed & _).
  split; [done|]. split; [done|]. split; [exact Hone|exact Hclosed].
Defined.

Lemma error_envelope_witness :
  outcome (invoke (handler_of AuthHandler) (ex_login "alice@example.org" "bad")
             (Env 300 "t") ex_two_users)
    = Val (error_response 401 "Invalid credentials") /\
  exists msg, msg ∈ error_messages /\
    resp_body (error_response 401 "Invalid credentials")
      = BodyDumps (JObj [("error", JStr msg)]).
Proof.
  split; [done|].
  apply (error_envelope AuthHandler (ex_login "alice@example.org" "bad")
           (Env 300 "t") ex_two_users
           (error_response 401 "Invalid credentials")); [done|].
  apply list_elem_of_In. cbn. tauto.
Defined.

Lemma register_blank_field_witness :
  (PyStr.strip " alice " = "" \/ PyStr.strip "alice@example.org" = ""
   \/ PyStr.strip "  " = "") /\
  outcome (invoke Auth.handler
             (ex_register " alice " "alice@example.org" "  ")
             (Env 100 "t") ex_two_users)
    = Val (error_response 400 "All fields are required") /\
  store_after (invoke Auth.handler
                 (ex_register " alice " "alice@example.org" "  ")
                 (Env 100 "t") ex_two_users) = ex_two_users.
Proof.
  split; [by right; right|].
  apply (register_blank_field
           (ex_register " alice " "alice@example.org" "  ") (Env 100 "t")
           ex_two_users " alice " "alice@example.org" "  ").
  - split; [done|]. split; [done|]. eexists. by repeat split.
  - by right; right.
Defined.

(** C4, as stated, fails: the store holds a user named alice with the email
    alice@example.org, yet a registration with that username and email and
    a whitespace-only password is answered 400, not 409: the check for empty
    fields comes before the existence check. *)
Lemma blank_field_preempts_conflict :
  (exists x, x ∈ users ex_two_users /\
             (u_username x = PyStr.strip "alice"
              \/ u_email x = PyStr.strip "alice@example.org")) /\
  outcome (invoke Auth.handler
             (ex_register "alice" "alice@example.org" "   ")
             (Env 300 "t") ex_two_users)
    = Val (error_response 400 "All fields are required") /\
  statusCode (error_response 400 "All fields are required") <> 409.
Proof.
  split; [|by vm_compute].
  exists (User 1 "alice" "alice@example.org" "sha256:pw-a" 100).
  split; [|by left]. apply list_elem_of_In. vm_compute. tauto.
Qed.

Lemma register_conflict_witness :
  exists resp,
    outcome (invoke Auth.handler ex_alice (Env 300 "t") ex_two_users)
      = Val resp /\
    (statusCode resp = 409 <->
     PyStr.strip " alice " <> "" /\
     PyStr.strip "alice@example.org" <> "" /\
     PyStr.strip "pw-a" <> "" /\
     exists x, x ∈ users ex_two_users /\
               (u_username x = PyStr.strip " alice "
                \/ u_email x = PyStr.strip "alice@example.org")) /\
    (statusCode resp = 409 ->
     store_after (invoke Auth.handler ex_alice (Env 300 "t") ex_two_users)
       = ex_two_users).
Proof.
  apply (register_conflict ex_alice (Env 300 "t") ex_two_users
           " alice " "alice@example.org" "pw-a" ex_alice_request).
Defined.

Lemma register_then_login_witness :
  exists resp',
    outcome (invoke Auth.handler (ex_login "alice@example.org" "pw-a")
               (Env 150 "token-A2") (store_after ex_run_alice)) = Val resp' /\
    statusCode resp' = 200 /\
    user_id_of resp' = Some (JInt 1).
Proof.
  destruct (register_then_login ex_alice (ex_login "alice@example.org" "pw-a")
              (Env 100 "token-A") (Env 150 "token-A2") empty_store
              " alice " "alice@example.org" "pw-a"
              (json_response 201
                 (Auth.session_json
                    (User 1 "alice" "alice@example.org" "sha256:pw-a" 100)
                    "token-A"))
              ex_alice_request ex_login_request eq_refl eq_refl)
    as (resp' & Hrun & Hok & _ & Hid).
  exists resp'. split; [exact Hrun|]. split; [exact Hok|exact Hid].
Defined.

(** C7, as stated, fails: on the example forum, whose newest message is
    message 3 of time 330, a post stored at the same clock value 330 is
    listed second, after message 3; and a post stored while the clock reads
    100 is listed last. *)
Lemma same_clock_post_not_first :
  outcome (invoke Messages.handler (ex_post "/" ∅ (ex_content " hello "))
             (Env 330 "") ex_forum)
    = Val (json_response 201
             (JObj [("message",
                     board_entry (Message 4 "hello" None None 330))])) /\
  outcome (invoke Messages.handler (ex_get "/") (Env 600 "")
             (store_after (invoke Messages.handler
                             (ex_post "/" ∅ (ex_content " hello "))
                             (Env 330 "") ex_forum)))
    = Val (json_response 200
             (JObj [("messages",
                     JArr (map board_entry
                             [Message 3 "c" None None 330;
                              Message 4 "hello" None None 330;
                              Message 2 "b" (Some 2) (Some 1) 320;
                              Message 1 "a" (Some 1) (Some 1) 310]))])) /\
  outcome (invoke Messages.handler (ex_get "/") (Env 600 "")
             (store_after (invoke Messages.handler
                             (ex_post "/" ∅ (ex_content " hello "))
                             (Env 100 "") ex_forum)))
    = Val (json_response 200
             (JObj [("messages",
                     JArr (map board_entry
                             [Message 3 "c" None None 330;
                              Message 2 "b" (Some 2) (Some 1) 320;
                              Message 1 "a" (Some 1) (Some 1) 310;
                              Message 4 "hello" None None 100]))])).
Proof. by vm_compute. Qed.

Lemma board_post_then_list_witness :
  outcome (invoke Messages.handler (ex_post "/" ∅ (ex_content "   "))
             (Env 500 "") ex_forum)
    = Val (error_response 400 "Content is required") /\
  exists (new : message) (ms : list message),
    m_content new = "hello" /\
    m_created_at new = 500 /\
    ms ≡ₚ messages ex_forum ++ [new] /\
    StronglySorted newer_or_equal ms /\
    outcome (invoke Messages.handler (ex_get "/") (Env 600 "")
               (store_after (invoke Messages.handler
                               (ex_post "/" ∅ (ex_content " hello "))
                               (Env 500 "") ex_forum)))
      = Val (json_response 200
               (JObj [("messages", JArr (map board_entry ms))])) /\
    head ms = Some new.
Proof.
  split.
  - apply (board_post_then_list (ex_post "/" ∅ (ex_content "   "))
             (ex_get "/") (Env 500 "") (Env 600 "") ex_forum "   ");
      [split; [done|]; eexists; by split|done|done].
  - destruct (board_post_then_list (ex_post "/" ∅ (ex_content " hello "))
                (ex_get "/") (Env 500 "") (Env 600 "") ex_forum " hello ")
      as (_ & Hposted); [split; [done|]; eexists; by split|done|].
    destruct Hposted
      as (new & ms & Hc & Ht & _ & Hstore & Hperm & Hsort & Hlist & Hhead);
      [done|].
    exists new, ms. split; [exact Hc|]. split; [exact Ht|].
    split; [by rewrite <- Hstore|]. split; [exact Hsort|].
    split; [exact Hlist|]. apply Hhead. by repeat constructor.
Defined.

(** ** The further properties at concrete requests *)


Lemma ex_reply_acting :
  acting_as (ex_reply "token-B" " third " 1) ex_forum
    (User 1 "alice" "alice@example.org" "sha256:pw-a" 100).
Proof. split; [by eexists|]. by split. Defined.

Lemma ex_reply_request :
  topic_message_request (ex_reply "token-B" " third " 1) " third " (JInt 1).
Proof. split; [done|]. split; [done|]. eexists. by repeat split. Defined.

Lemma options_preflight_witness :
  invoke (handler_of MessagesHandler) (ex_method "OPTIONS" "/anything")
         (Env 0 "") ex_forum
  = (Val (options_response "Content-Type"), World ex_forum None []).
Proof.
  apply (options_preflight MessagesHandler (ex_method "OPTIONS" "/anything")
           (Env 0 "") ex_forum). reflexivity.
Defined.

Lemma login_blank_field_witness :
  outcome (invoke Auth.handler (ex_login "alice@example.org" "  ")
             (Env 300 "t") ex_two_users)
    = Val (error_response 400 "Email and password are required") /\
  store_after (invoke Auth.handler (ex_login "alice@example.org" "  ")
                 (Env 300 "t") ex_two_users) = ex_two_users.
Proof.
  apply (login_blank_field (ex_login "alice@example.org" "  ") (Env 300 "t")
           ex_two_users "alice@example.org" "  ").
  - split; [done|]. split; [done|]. eexists. by repeat split.
  - by right.
Defined.

Lemma login_authenticates_witness :
  outcome (invoke Auth.handler (ex_login "alice@example.org" "wrong")
             (Env 300 "t") ex_two_users)
    = Val (error_response 401 "Invalid credentials").
Proof.
  destruct (login_authenticates (ex_login "alice@example.org" "wrong")
              (Env 300 "t") ex_two_users "alice@example.org" "wrong")
    as (_ & _ & Hdenied).
  - split; [done|]. split; [done|]. eexists. by repeat split.
  - done.
  - done.
  - apply Hdenied. intros x Hx%list_elem_of_In [Hmail Hhash].
    vm_compute in Hx. destruct Hx as [<-|[<-|[]]]; by vm_compute in Hhash.
Defined.

Lemma auth_unknown_action_witness :
  invoke Auth.handler (ex_method "GET" "/") (Env 0 "") ex_two_users
  = (Val (error_response 404 "Not found"),
     World ex_two_users None [EvConnect; EvCursor; EvCursorClose; EvClose]).
Proof.
  apply (auth_unknown_action (ex_method "GET" "/") (Env 0 "") ex_two_users);
    [done|by left].
Defined.

Lemma register_created_witness :
  outcome (invoke Auth.handler
             (ex_register "carol " " carol@example.org" "pw-c")
             (Env 300 "token-C") ex_two_users)
    = Val (json_response 201
             (session_body (User 3 "carol" "carol@example.org" "sha256:pw-c" 300)
                "token-C")).
Proof.
  destruct (register_created
              (ex_register "carol " " carol@example.org" "pw-c")
              (Env 300 "token-C") ex_two_users
              "carol " " carol@example.org" "pw-c") as (Hrun & _).
  - split; [done|]. split; [done|]. eexists. by repeat split.
  - done.
  - done.
  - done.
  - intros x Hx%list_elem_of_In. vm_compute in Hx.
    destruct Hx as [<-|[<-|[]]]; by split.
  - exact Hrun.
Defined.

Lemma register_twice_conflict_witness :
  outcome (invoke Auth.handler
             (ex_register "alice" "other@example.org" "pw-x")
             (Env 150 "t") (store_after ex_run_alice))
    = Val (error_response 409 "Username or email already exists").
Proof.
  apply (register_twice_conflict ex_alice
           (ex_register "alice" "other@example.org" "pw-x")
           (Env 100 "token-A") (Env 150 "t") empty_store
           " alice " "alice@example.org" "pw-a"
           "alice" "other@example.org" "pw-x"
           (json_response 201
              (Auth.session_json
                 (User 1 "alice" "alice@example.org" "sha256:pw-a" 100)
                 "token-A"))
           ex_alice_request eq_refl eq_refl).
  - split; [done|]. split; [done|]. eexists. by repeat split.
  - done.
  - done.
  - done.
  - by left.
Defined.

Lemma register_then_wrong_password_witness :
  outcome (invoke Auth.handler (ex_login "alice@example.org" "pw-b")
             (Env 150 "t") (store_after ex_run_alice))
    = Val (error_response 401 "Invalid credentials").
Proof.
  apply (register_then_wrong_password ex_alice
           (ex_login "alice@example.org" "pw-b")
           (Env 100 "token-A") (Env 150 "t") empty_store
           " alice " "alice@example.org" "pw-a" "pw-b"
           (json_response 201
              (Auth.session_json
                 (User 1 "alice" "alice@example.org" "sha256:pw-a" 100)
                 "token-A"))
           ex_alice_request eq_refl eq_refl).
  - split; [done|]. split; [done|]. eexists. by repeat split.
  - done.
  - done.
Defined.

Lemma unique_credentials_preserved_witness :
  unique_credentials ex_two_users /\
  unique_credentials
    (store_after (invoke (handler_of AuthHandler)
                    (ex_register "carol" "carol@example.org" "pw-c")
                    (Env 300 "token-C") ex_two_users)).
Proof.
  assert (unique_credentials ex_two_users) as Huniq.
  { split; apply (bool_decide_unpack _); by vm_compute. }
  split; [exact Huniq|].
  apply (unique_credentials_preserved AuthHandler
           (ex_register "carol" "carol@example.org" "pw-c")
           (Env 300 "token-C") ex_two_users Huniq).
Defined.

Lemma stored_text_trimmed_preserved_witness :
  stored_text_trimmed
    (store_after (invoke (handler_of TopicsHandler)
                    (ex_reply "token-B" " third " 1) (Env 500 "") ex_forum)).
Proof.
  apply (stored_text_trimmed_preserved TopicsHandler
           (ex_reply "token-B" " third " 1) (Env 500 "") ex_forum).
  repeat split; repeat constructor; by vm_compute.
Defined.

Lemma owners_exist_preserved_witness :
  owners_exist
    (store_after (invoke (handler_of TopicsHandler)
                    (ex_reply "token-B" " third " 1) (Env 500 "") ex_forum)).
Proof.
  apply (owners_exist_preserved TopicsHandler
           (ex_reply "token-B" " third " 1) (Env 500 "") ex_forum).
  split; apply Forall_forall.
  - intros t Ht%list_elem_of_In. vm_compute in Ht.
    destruct Ht as [<-|[<-|[]]]; apply list_elem_of_In; vm_compute; tauto.
  - intros m Hm%list_elem_of_In i Hi. vm_compute in Hm.
    destruct Hm as [<-|[<-|[<-|[]]]]; cbn in Hi; simplify_eq;
      apply list_elem_of_In; vm_compute; tauto.
Defined.

Lemma token_never_stored_witness :
  store_after (invoke (handler_of AuthHandler) ex_alice (Env 100 "one")
                 empty_store)
  = store_after (invoke (handler_of AuthHandler) ex_alice (Env 100 "two")
                   empty_store).
Proof.
  destruct (token_never_stored AuthHandler ex_alice 100 "one" "two"
              empty_store) as [Hsame _].
  unfold store_after. by rewrite Hsame.
Defined.

Lemma exception_leaves_store_witness :
  store_after (invoke (handler_of MessagesHandler) ex_malformed_post
                 (Env 0 "") ex_forum) = ex_forum.
Proof.
  apply (exception_leaves_store MessagesHandler ex_malformed_post (Env 0 "")
           ex_forum JSONDecodeError). reflexivity.
Defined.

Lemma connection_open_on_exception_witness :
  is_Some (conn (invoke (handler_of MessagesHandler) ex_malformed_post
                   (Env 0 "") ex_forum).2) /\
  occurrences EvClose
    (trace (invoke (handler_of MessagesHandler) ex_malformed_post
              (Env 0 "") ex_forum).2) = 0%nat.
Proof.
  apply (connection_open_on_exception MessagesHandler ex_malformed_post
           (Env 0 "") ex_forum JSONDecodeError). reflexivity.
Defined.

Lemma read_only_methods_witness :
  store_after (invoke (handler_of TopicsHandler) (ex_thread "1") (Env 0 "")
                 ex_forum) = ex_forum.
Proof.
  apply (read_only_methods TopicsHandler (ex_thread "1") (Env 0 "") ex_forum).
  done.
Defined.

Lemma created_iff_inserted_witness :
  rows (store_after (invoke (handler_of TopicsHandler)
                       (ex_reply "token-B" " third " 1) (Env 500 "") ex_forum))
  = S (rows ex_forum).
Proof.
  destruct (created_iff_inserted TopicsHandler
              (ex_reply "token-B" " third " 1) (Env 500 "") ex_forum
              (json_response 201
                 (JObj [("message",
                         Topics.created_message_json
                           (Message 4 "third" (Some 1) (Some 1) 500))])))
    as [Hnew _]; [by vm_compute|].
  by apply Hnew.
Defined.

Lemma board_listing_witness :
  exists ms : list message,
    ms ≡ₚ messages ex_forum /\
    StronglySorted newer_or_equal ms /\
    outcome (invoke Messages.handler (ex_get "/") (Env 0 "") ex_forum)
      = Val (json_response 200
               (JObj [("messages", JArr (map board_entry ms))])) /\
    store_after (invoke Messages.handler (ex_get "/") (Env 0 "") ex_forum)
      = ex_forum.
Proof. apply (board_listing (ex_get "/") (Env 0 "") ex_forum). done. Defined.

Lemma post_missing_content_witness :
  outcome (invoke Messages.handler (ex_method "POST" "/") (Env 0 "") ex_forum)
    = Val (error_response 400 "Content is required") /\
  store_after (invoke Messages.handler (ex_method "POST" "/") (Env 0 "")
                 ex_forum) = ex_forum.
Proof.
  apply (post_missing_content (ex_method "POST" "/") (Env 0 "") ex_forum);
    [done|by left].
Defined.

Lemma post_undecodable_raises_witness :
  outcome (invoke Messages.handler
             (ex_post "/" ∅ (BodyJson (JObj [("content", JInt 7)])))
             (Env 0 "") ex_forum) = Exc AttributeError /\
  store_after (invoke Messages.handler
                 (ex_post "/" ∅ (BodyJson (JObj [("content", JInt 7)])))
                 (Env 0 "") ex_forum) = ex_forum.
Proof.
  apply (post_undecodable_raises
           (ex_post "/" ∅ (BodyJson (JObj [("content", JInt 7)])))
           (Env 0 "") ex_forum AttributeError); done.
Defined.

Lemma messages_method_not_allowed_witness :
  invoke Messages.handler (ex_method "DELETE" "/") (Env 0 "") ex_forum
  = (Val (error_response 405 "Method not allowed"),
     World ex_forum None [EvConnect; EvCursor; EvCursorClose; EvClose]).
Proof.
  apply (messages_method_not_allowed (ex_method "DELETE" "/") (Env 0 "")
           ex_forum); done.
Defined.

Lemma board_post_created_witness :
  messages (store_after (invoke Messages.handler
                           (ex_post "/" {["X-Auth-Token" := "token-B"]}
                                    (ex_content " hello "))
                           (Env 500 "") ex_forum))
  = messages ex_forum ++ [Message 4 "hello" None None 500].
Proof.
  destruct (board_post_created
              (ex_post "/" {["X-Auth-Token" := "token-B"]}
                       (ex_content " hello "))
              (Env 500 "") ex_forum " hello ") as (_ & Hnew & _).
  - split; [done|]. eexists. by split.
  - done.
  - exact Hnew.
Defined.

Lemma create_topic_blank_title_witness :
  outcome (invoke Topics.handler
             (ex_post "/" {["X-Auth-Token" := "token-B"]} (ex_title "   "))
             (Env 300 "") ex_two_users)
    = Val (error_response 400 "Title is required").
Proof.
  apply (create_topic_blank_title
           (ex_post "/" {["X-Auth-Token" := "token-B"]} (ex_title "   "))
           (Env 300 "") ex_two_users
           (User 1 "alice" "alice@example.org" "sha256:pw-a" 100) "   ").
  - split; [by eexists|]. by split.
  - split; [done|]. split; [done|]. eexists. by split.
  - done.
Defined.


Lemma thread_missing_topic_id_witness :
  outcome (invoke Topics.handler (ex_method "GET" "/messages") (Env 0 "")
             ex_forum)
    = Val (error_response 400 "topic_id is required").
Proof.
  apply (thread_missing_topic_id (ex_method "GET" "/messages") (Env 0 "")
           ex_forum None); [by repeat split|by left].
Defined.

Lemma thread_listing_witness :
  exists ms : list message,
    ms ≡ₚ thread ex_forum 1 /\
    StronglySorted older_or_equal ms /\
    outcome (invoke Topics.handler (ex_thread "1") (Env 0 "") ex_forum)
      = Val (json_response 200
               (JObj [("messages", JArr (map (thread_entry ex_forum) ms))])).
Proof.
  destruct (thread_listing (ex_thread "1") (Env 0 "") ex_forum "1")
    as [_ Hlist]; [by repeat split|done|].
  exact Hlist.
Defined.

(** The thread of topic 1 of the example forum: the messages of 310 and 320,
    in that order, each with its author. *)
Example ex_thread_listing :
  outcome (invoke Topics.handler (ex_thread "1") (Env 0 "") ex_forum)
  = Val (json_response 200
           (JObj [("messages",
                   JArr [thread_entry ex_forum
                           (Message 1 "a" (Some 1) (Some 1) 310);
                         thread_entry ex_forum
                           (Message 2 "b" (Some 2) (Some 1) 320)])])).
Proof. by vm_compute. Qed.

Lemma create_topic_message_invalid_witness :
  outcome (invoke Topics.handler (ex_reply "token-B" "x" 0) (Env 500 "")
             ex_forum)
    = Val (error_response 400 "Content and topic_id are required").
Proof.
  apply (create_topic_message_invalid (ex_reply "token-B" "x" 0) (Env 500 "")
           ex_forum (User 1 "alice" "alice@example.org" "sha256:pw-a" 100)
           "x" (JInt 0)).
  - split; [by eexists|]. by split.
  - split; [done|]. split; [done|]. eexists. by repeat split.
  - by right.
Defined.


Lemma topics_unmatched_route_witness :
  invoke Topics.handler (ex_method "PUT" "/") (Env 0 "") ex_forum
  = (Val (error_response 404 "Not found"),
     World ex_forum None [EvConnect; EvCursor; EvCursorClose; EvClose]).
Proof.
  apply (topics_unmatched_route (ex_method "PUT" "/") (Env 0 "") ex_forum);
    [done|by left].
Defined.

Lemma board_lists_topic_messages_witness :
  exists ms : list message,
    Message 4 "third" (Some 1) (Some 1) 500 ∈ ms /\
    ms ≡ₚ messages ex_forum ++ [Message 4 "third" (Some 1) (Some 1) 500] /\
    outcome (invoke Messages.handler (ex_get "/") (Env 600 "")
               (store_after (invoke Topics.handler
                               (ex_reply "token-B" " third " 1) (Env 500 "")
                               ex_forum)))
      = Val (json_response 200
               (JObj [("messages", JArr (map board_entry ms))])).
Proof.
  apply (board_lists_topic_messages (ex_reply "token-B" " third " 1)
           (ex_get "/") (Env 500 "") (Env 600 "") ex_forum
           (User 1 "alice" "alice@example.org" "sha256:pw-a" 100)
           " third " (JInt 1) 1 ex_reply_acting ex_reply_request); done.
Defined.
